(** * pydp700: a shallow embedding of the DP700 power-supply driver

    The driver of [pydp700/dp700.py] is a class [PowerSupply] wrapping a
    pyserial port.  Every public method formats one ASCII command, writes
    it, reads one line back and decodes it.  The embedding below keeps
    that shape:

    - [bytes] are [list byte]; a Python [str] is kept as its UTF-8 text
      (a Rocq [string]), so that [encode] is the identity on the bytes and
      [decode] is a validity check;
    - a Python [float] is a binary64 value of [spec_float];
    - the serial port and the console are one explicit [World] threaded
      through a state-and-exception monad [M] in which a raised exception
      keeps the effects performed before it, as in Python.

    The built-ins the driver calls are modelled next to it: [float] on
    bytes with the grammar and the rounding of CPython, the strict UTF-8
    decoder, [str.split], [str.format] on integers.  The text of a float
    under [str.format] is left as a parameter, [float_repr].  The device
    is a script of the lines it will send; a port that is open accepts
    every write, and how long a read waits is not represented: a read
    that times out is a line that comes back short or empty. *)

From Stdlib Require Import ZArith NArith List Bool Lia.
From Stdlib Require Import Strings.String Strings.Ascii Strings.Byte.
From Stdlib Require Import DecimalString SpecFloat.
Import ListNotations.

Local Open Scope string_scope.
Local Open Scope list_scope.
Local Open Scope Z_scope.

(** ** Python values used by the driver *)

Definition bytes := list byte.

(** [str.encode("utf-8")] and the text of a [bytes] value. *)
Definition encode (s : string) : bytes := list_byte_of_string s.
Definition text_of (b : bytes) : string := string_of_list_byte b.

(** A Python [float]: IEEE 754 binary64. *)
Definition prec : Z := 53.
Definition emax : Z := 1024.
Definition float := spec_float.

(** The numbers a caller passes as voltage, current or memory index. *)
Inductive number :=
| PyInt (z : Z)
| PyFloat (f : float).

(** What [_decode_response] returns: a float or a str. *)
Inductive decoded :=
| Num (f : float)
| Text (s : string).

Inductive exn :=
| SerialException
| PortNotOpenError
| ValueError
| UnicodeDecodeError
| AttributeError
| IndexError.

Inductive result (A : Type) :=
| Ok (a : A)
| Raise (e : exn).
Arguments Ok {A} a.
Arguments Raise {A} e.

(** ** Built-ins: [float(bytes)] *)

Module PyFloat.

(** [Py_ISSPACE]: tab, line feed, vertical tab, form feed, carriage
    return and space. *)
Definition is_space (b : byte) : bool :=
  let n := Byte.to_N b in
  ((9 <=? n) && (n <=? 13) || (n =? 32))%N.

Definition digit_of (b : byte) : option Z :=
  let n := Byte.to_N b in
  if ((48 <=? n) && (n <=? 57))%N then Some (Z.of_N (n - 48)) else None.

Definition is_digit (b : byte) : bool :=
  match digit_of b with Some _ => true | None => false end.

(** [Py_TOLOWER] on ASCII letters. *)
Definition to_lower (b : byte) : N :=
  let n := Byte.to_N b in
  if ((65 <=? n) && (n <=? 90))%N then (n + 32)%N else n.

Fixpoint lstrip (bs : bytes) : bytes :=
  match bs with
  | b :: rest => if is_space b then lstrip rest else bs
  | [] => []
  end.

Definition rstrip (bs : bytes) : bytes := rev (lstrip (rev bs)).

(** The underscore pass of [_Py_string_to_number_with_underscores]:
    an underscore must stand between two digits; [prev] is the byte
    before the current one. *)
Fixpoint drop_underscores (prev : option byte) (bs : bytes) : option bytes :=
  match bs with
  | [] =>
      match prev with
      | Some "_"%byte => None
      | _ => Some []
      end
  | "_"%byte :: rest =>
      match prev with
      | Some p => if is_digit p then drop_underscores (Some "_"%byte) rest else None
      | None => None
      end
  | c :: rest =>
      match prev with
      | Some "_"%byte =>
          if is_digit c
          then option_map (cons c) (drop_underscores (Some c) rest)
          else None
      | _ => option_map (cons c) (drop_underscores (Some c) rest)
      end
  end.

(** A run of decimal digits: its value continued from [acc], how many
    digits were read, and what follows. *)
Fixpoint digits (bs : bytes) (acc : Z) (n : Z) : Z * Z * bytes :=
  match bs with
  | b :: rest =>
      match digit_of b with
      | Some d => digits rest (10 * acc + d) (n + 1)
      | None => (acc, n, bs)
      end
  | [] => (acc, n, [])
  end.

Definition sign_of (bs : bytes) : bool * bytes :=
  match bs with
  | "-"%byte :: rest => (true, rest)
  | "+"%byte :: rest => (false, rest)
  | _ => (false, bs)
  end.

(** The correctly rounded binary64 value of [d * 10 ^ k], [0 <= d]. *)
Definition of_decimal (neg : bool) (d k : Z) : float :=
  if d =? 0 then S754_zero neg
  else
    let num := if 0 <=? k then d * 10 ^ k else d in
    let den := if 0 <=? k then 1 else 10 ^ (- k) in
    let '(q, e, l) := SFdiv_core_binary prec emax num 0 den 0 in
    binary_round_aux prec emax neg q e l.

(** The exponent part: [e] or [E], an optional sign and at least one
    digit; without a digit the exponent is not consumed. *)
Definition exponent (bs : bytes) : Z * bytes :=
  match bs with
  | b :: rest =>
      if (to_lower b =? 101)%N then
        let '(neg, after_sign) := sign_of rest in
        let '(v, n, after) := digits after_sign 0 0 in
        if n =? 0 then (0, bs) else ((if neg then - v else v), after)
      else (0, bs)
  | [] => (0, [])
  end.

(** The grammar of [_Py_dg_strtod]: sign, digits, optional point and
    digits, optional exponent; at least one digit in the mantissa.
    [None] is a parse error (nothing consumed). *)
Definition strtod (bs : bytes) : option (float * bytes) :=
  let '(neg, s1) := sign_of bs in
  let '(ip, ni, s2) := digits s1 0 0 in
  let '(m, nf, s3) :=
    match s2 with
    | "."%byte :: after_point => digits after_point ip 0
    | _ => (ip, 0, s2)
    end in
  if ni + nf =? 0 then None
  else
    let '(e, s4) := exponent s3 in
    Some (of_decimal neg m (e - nf), s4).

(** [case_insensitive_match]: [word] is given in lower case. *)
Fixpoint match_word (word : list N) (bs : bytes) : option bytes :=
  match word, bs with
  | [], _ => Some bs
  | w :: ws, b :: rest => if (to_lower b =? w)%N then match_word ws rest else None
  | _ :: _, [] => None
  end.

Definition w_inf : list N := [105; 110; 102]%N.
Definition w_inity : list N := [105; 110; 105; 116; 121]%N.
Definition w_nan : list N := [110; 97; 110]%N.

(** [_Py_parse_inf_or_nan]. *)
Definition parse_inf_or_nan (bs : bytes) : option (float * bytes) :=
  let '(neg, s) := sign_of bs in
  match match_word w_inf s with
  | Some after =>
      match match_word w_inity after with
      | Some after' => Some (S754_infinity neg, after')
      | None => Some (S754_infinity neg, after)
      end
  | None =>
      match match_word w_nan s with
      | Some after => Some (S754_nan, after)
      | None => None
      end
  end.

(** [_PyOS_ascii_strtod]. *)
Definition ascii_strtod (bs : bytes) : option (float * bytes) :=
  match strtod bs with
  | Some r => Some r
  | None => parse_inf_or_nan bs
  end.

(** [float_from_string_inner]: surrounding white space is dropped and
    the number must take up all that is left. *)
Definition from_string_inner (bs : bytes) : option float :=
  match lstrip bs with
  | [] => None
  | s =>
      match ascii_strtod (rstrip s) with
      | Some (x, []) => Some x
      | _ => None
      end
  end.

Definition has_underscore (bs : bytes) : bool :=
  existsb (Byte.eqb "_"%byte) bs.

(** [float(b)] for a [bytes] argument; [None] stands for [ValueError]. *)
Definition of_bytes (bs : bytes) : option float :=
  if has_underscore bs then
    match drop_underscores None bs with
    | Some dup => from_string_inner dup
    | None => None
    end
  else from_string_inner bs.

End PyFloat.

(** ** Built-ins: [bytes.decode("utf-8")] *)

Module Utf8.

(** The strict decoder as an automaton over the bytes: what the next
    byte has to be.  [Second lo hi k]: a continuation byte within
    [lo..hi], then [k] more plain continuation bytes. *)
Inductive state :=
| Start
| Second (lo hi : N) (k : nat)
| Cont (k : nat).

Definition in_range (lo hi n : N) : bool := ((lo <=? n) && (n <=? hi))%N.

Definition after_cont (k : nat) : state :=
  match k with
  | O => Start
  | S k' => Cont k'
  end.

(** One byte; [None] is an invalid byte for the state. *)
Definition step (st : state) (b : byte) : option state :=
  let n := Byte.to_N b in
  match st with
  | Start =>
      if in_range 0 127 n then Some Start
      else if in_range 194 223 n then Some (Cont 0)
      else if (n =? 224)%N then Some (Second 160 191 0)
      else if in_range 225 236 n then Some (Cont 1)
      else if (n =? 237)%N then Some (Second 128 159 0)
      else if in_range 238 239 n then Some (Cont 1)
      else if (n =? 240)%N then Some (Second 144 191 1)
      else if in_range 241 243 n then Some (Cont 2)
      else if (n =? 244)%N then Some (Second 128 143 1)
      else None
  | Second lo hi k =>
      if in_range lo hi n then Some (Cont k) else None
  | Cont k =>
      if in_range 128 191 n then Some (after_cont k) else None
  end.

Fixpoint run (st : state) (bs : bytes) : bool :=
  match bs with
  | [] => match st with Start => true | _ => false end
  | b :: rest =>
      match step st b with
      | Some st' => run st' rest
      | None => false
      end
  end.

Definition valid (bs : bytes) : bool := run Start bs.

(** [b.decode("utf-8")]: the text, or [UnicodeDecodeError]. *)
Definition decode (bs : bytes) : result string :=
  if valid bs then Ok (text_of bs) else Raise UnicodeDecodeError.

End Utf8.

(** ** Built-ins: [str.split], [str.format], comparisons *)

(** [s.split(sep)] for a one-character separator: never empty. *)
Fixpoint split (sep : ascii) (s : string) : list string :=
  match s with
  | EmptyString => [EmptyString]
  | String c rest =>
      if Ascii.eqb c sep then EmptyString :: split sep rest
      else
        match split sep rest with
        | field :: fields => String c field :: fields
        | [] => [String c EmptyString]
        end
  end.

Definition comma : ascii := ","%char.

(** The line terminator ['\n']. *)
Definition LF : string := String "010"%char EmptyString.

(** ['{}'.format(z)] for an [int]. *)
Definition format_int (z : Z) : string := NilZero.string_of_int (Z.to_int z).

(** The exact value of a number, for comparing an [int] with a
    [float] as Python does: without rounding the [int]. *)
Inductive extended :=
| NaN
| NegInf
| PosInf
| Finite (m e : Z).   (* m * 2 ^ e *)

Definition extended_of_float (f : float) : extended :=
  match f with
  | S754_zero _ => Finite 0 0
  | S754_infinity s => if s then NegInf else PosInf
  | S754_nan => NaN
  | S754_finite s m e => Finite (cond_Zopp s (Zpos m)) e
  end.

Definition extended_of (x : number) : extended :=
  match x with
  | PyInt z => Finite z 0
  | PyFloat f => extended_of_float f
  end.

Definition extended_compare (a b : extended) : option comparison :=
  match a, b with
  | NaN, _ | _, NaN => None
  | NegInf, NegInf | PosInf, PosInf => Some Eq
  | NegInf, _ | _, PosInf => Some Lt
  | _, NegInf | PosInf, _ => Some Gt
  | Finite m1 e1, Finite m2 e2 =>
      let e := Z.min e1 e2 in
      Some (Z.compare (m1 * 2 ^ (e1 - e)) (m2 * 2 ^ (e2 - e)))
  end.

Definition compare (a b : number) : option comparison :=
  extended_compare (extended_of a) (extended_of b).

(** [a <= b], [a >= b], [a > b]: false whenever a NaN takes part. *)
Definition py_le (a b : number) : bool :=
  match compare a b with
  | Some Lt | Some Eq => true
  | _ => false
  end.

Definition py_ge (a b : number) : bool :=
  match compare a b with
  | Some Gt | Some Eq => true
  | _ => false
  end.

Definition py_gt (a b : number) : bool :=
  match compare a b with
  | Some Gt => true
  | _ => false
  end.

(** The float a decimal literal of the source denotes, e.g. [30.0]. *)
Definition literal (d k : Z) : float := PyFloat.of_decimal false d k.

(** ** The model table *)

Record limits := {
  max_voltage : float;
  max_current : float;
}.

Definition MODEL_PARAMETERS : list (string * limits) :=
  [ ("DP711", {| max_voltage := literal 300 (-1); max_current := literal 50 (-1) |});
    ("DP712", {| max_voltage := literal 500 (-1); max_current := literal 30 (-1) |}) ].

(** [d[key]]: [None] stands for [KeyError]. *)
Fixpoint lookup {A : Type} (key : string) (d : list (string * A)) : option A :=
  match d with
  | [] => None
  | (k, v) :: rest => if String.eqb k key then Some v else lookup key rest
  end.

(** ** The world: serial port and console *)

(** What the port is asked to do, oldest first. *)
Inductive event :=
| Write (data : bytes)
| Flush
| Close.

(** The port of [serial.Serial] together with the device behind it.
    [incoming] is what the successive [readline()] calls return: a line
    with its terminator, or whatever had arrived when the read timeout
    expired (possibly nothing).  Once the list is used up every read
    times out with no data. *)
Record World := {
  attached : list string;
  is_open : bool;
  baudrate : Z;
  incoming : list bytes;
  trace : list event;
  stdout : list string;
}.

Definition set_open (o : bool) (w : World) : World :=
  {| attached := attached w; is_open := o; baudrate := baudrate w;
     incoming := incoming w; trace := trace w; stdout := stdout w |}.

Definition set_baudrate (b : Z) (w : World) : World :=
  {| attached := attached w; is_open := is_open w; baudrate := b;
     incoming := incoming w; trace := trace w; stdout := stdout w |}.

Definition set_incoming (i : list bytes) (w : World) : World :=
  {| attached := attached w; is_open := is_open w; baudrate := baudrate w;
     incoming := i; trace := trace w; stdout := stdout w |}.

Definition log (e : event) (w : World) : World :=
  {| attached := attached w; is_open := is_open w; baudrate := baudrate w;
     incoming := incoming w; trace := trace w ++ [e]; stdout := stdout w |}.

Definition put_line (s : string) (w : World) : World :=
  {| attached := attached w; is_open := is_open w; baudrate := baudrate w;
     incoming := incoming w; trace := trace w; stdout := stdout w ++ [s] |}.

(** ** State and exceptions *)

Definition M (A : Type) : Type := World -> result A * World.

Definition ret {A : Type} (a : A) : M A := fun w => (Ok a, w).

Definition raise {A : Type} (e : exn) : M A := fun w => (Raise e, w).

Definition bind {A B : Type} (c : M A) (k : A -> M B) : M B :=
  fun w =>
    match c w with
    | (Ok a, w') => k a w'
    | (Raise e, w') => (Raise e, w')
    end.

Definition lift {A : Type} (r : result A) : M A := fun w => (r, w).

Definition modify (f : World -> World) : M unit := fun w => (Ok tt, f w).

Declare Scope monad_scope.
Delimit Scope monad_scope with monad.
Notation "x <- c ;; k" := (bind c (fun x => k))
  (at level 61, c at next level, right associativity) : monad_scope.
Notation "c ;; k" := (bind c (fun _ => k))
  (at level 61, right associativity) : monad_scope.
Local Open Scope monad_scope.

(** ** pyserial *)

Module Serial.

Definition can_open (port : string) (w : World) : bool :=
  existsb (String.eqb port) (attached w).

(** The [baudrate] setter: a negative rate is refused. *)
Definition set_rate (b : Z) : M unit :=
  if b <? 0 then raise ValueError else modify (set_baudrate b).

(** [serial.Serial(port, baudrate, timeout=...)]: configure, then open;
    a port that is not there gives [SerialException]. *)
Definition open (port : string) (b : Z) : M unit :=
  set_rate b ;;
  fun w =>
    if can_open port w then (Ok tt, set_open true w)
    else (Raise SerialException, w).

Definition write (data : bytes) : M unit :=
  fun w =>
    if is_open w then (Ok tt, log (Write data) w)
    else (Raise PortNotOpenError, w).

Definition readline : M bytes :=
  fun w =>
    if is_open w then
      match incoming w with
      | line :: rest => (Ok line, set_incoming rest w)
      | [] => (Ok [], w)
      end
    else (Raise PortNotOpenError, w).

Definition flush : M unit :=
  fun w =>
    if is_open w then (Ok tt, log Flush w)
    else (Raise PortNotOpenError, w).

(** Closing a closed port does nothing. *)
Definition close : M unit :=
  fun w =>
    if is_open w then (Ok tt, set_open false (log Close w))
    else (Ok tt, w).

End Serial.

Definition print (line : string) : M unit := modify (put_line line).

(** ** The driver *)

Section Driver.

Local Open Scope string_scope.

(** ['{}'.format(x)] for a float [x]: the text of [repr(x)]. *)
Variable float_repr : float -> string.

Definition format_number (x : number) : string :=
  match x with
  | PyInt z => format_int z
  | PyFloat f => float_repr f
  end.

(** The attributes of a [PowerSupply] once [__init__] has returned;
    the port itself lives in the [World]. *)
Record PowerSupply := {
  _manufacturer : string;
  _model : string;
  _serial : string;
  _software_version : string;
  _id : string;
  _max_voltage : option float;
  _max_current : option float;
}.

Definition _decode_response (response : bytes) : result decoded :=
  match PyFloat.of_bytes response with
  | Some value => Ok (Num value)
  | None =>
      match Utf8.decode response with
      | Ok value => Ok (Text value)
      | Raise e => Raise e
      end
  end.

Definition _execute_command (command : bytes) : M decoded :=
  Serial.write command ;;
  data <- Serial.readline ;;
  lift (_decode_response (removelast data)).

(** [identification_values[i]] *)
Definition item (values : list string) (i : nat) : M string :=
  match nth_error values i with
  | Some v => ret v
  | None => raise IndexError
  end.

(** [_get_device_identification]: the four attributes it sets, as
    (manufacturer, model, serial, software version). *)
Definition _get_device_identification : M (string * string * string * string) :=
  identification_string <- _execute_command (encode ("*IDN?" ++ LF)) ;;
  match identification_string with
  | Num _ => raise AttributeError
  | Text s =>
      let identification_values := split comma s in
      manufacturer <- item identification_values 0 ;;
      model <- item identification_values 1 ;;
      serial <- item identification_values 2 ;;
      software_version <- item identification_values 3 ;;
      ret (manufacturer, model, serial, software_version)
  end.

Definition default_baudrate : Z := 9600.

Definition __init__ (port : string) (baudrate : Z) : M PowerSupply :=
  Serial.open port baudrate ;;
  ident <- _get_device_identification ;;
  let '(manufacturer, model, serial, software_version) := ident in
  let id := manufacturer ++ " " ++ model ++ " " ++ software_version in
  match lookup model MODEL_PARAMETERS with
  | Some parameters =>
      ret {| _manufacturer := manufacturer; _model := model; _serial := serial;
             _software_version := software_version; _id := id;
             _max_voltage := Some (max_voltage parameters);
             _max_current := Some (max_current parameters) |}
  | None =>
      print ("<WARNING> " ++ model ++ " is unsupported!") ;;
      ret {| _manufacturer := manufacturer; _model := model; _serial := serial;
             _software_version := software_version; _id := id;
             _max_voltage := None;
             _max_current := None |}
  end.

Definition get_identification (self : PowerSupply) : string := _id self.

Definition __str__ (self : PowerSupply) : string :=
  "<PowerSupply> " ++ get_identification self.

Definition __enter__ (self : PowerSupply) : PowerSupply := self.

Definition __exit__ (self : PowerSupply) : M unit :=
  _execute_command (encode (":SYST:LOC" ++ LF)) ;;
  Serial.close.

Definition set_baud_rate (self : PowerSupply) (baud_rate : Z) : M unit :=
  _execute_command (encode (":SYST:COMM:RS232:BAUD " ++ format_int baud_rate ++ LF)) ;;
  Serial.flush ;;
  Serial.set_rate baud_rate.

(** [limit is None or x <= limit] *)
Definition within (limit : option float) (x : number) : bool :=
  match limit with
  | None => true
  | Some l => py_le x (PyFloat l)
  end.

Definition set_output_voltage (self : PowerSupply) (voltage : number) : M unit :=
  if within (_max_voltage self) voltage then
    _execute_command (encode (":VOLT " ++ format_number voltage ++ LF)) ;;
    ret tt
  else ret tt.

Definition get_requested_output_voltage (self : PowerSupply) : M decoded :=
  _execute_command (encode (":VOLT?" ++ LF)).

Definition get_output_voltage (self : PowerSupply) : M decoded :=
  _execute_command (encode (":MEAS:VOLT? CH1" ++ LF)).

Definition set_output_current (self : PowerSupply) (current : number) : M unit :=
  if within (_max_current self) current then
    _execute_command (encode (":CURR " ++ format_number current ++ LF)) ;;
    ret tt
  else ret tt.

Definition get_requested_output_current (self : PowerSupply) : M decoded :=
  _execute_command (encode (":CURR?" ++ LF)).

Definition get_output_current (self : PowerSupply) : M decoded :=
  _execute_command (encode (":MEAS:CURR? CH1" ++ LF)).

Definition get_output_power (self : PowerSupply) : M decoded :=
  _execute_command (encode (":MEAS:POWE? CH1" ++ LF)).

Definition recall_from_memory (self : PowerSupply) (index : number) : M unit :=
  if py_ge index (PyInt 1) || py_le index (PyInt 10) then
    _execute_command (encode (":MEM:LOAD RSF," ++ format_number index ++ LF)) ;;
    ret tt
  else ret tt.

Definition save_to_memory (self : PowerSupply) (index : number) : M unit :=
  if py_ge index (PyInt 1) || py_le index (PyInt 10) then
    _execute_command (encode (":MEM:STOR RSF," ++ format_number index ++ LF)) ;;
    ret tt
  else ret tt.

Definition enable_output (self : PowerSupply) (enable : bool) : M unit :=
  let command_str :=
    if enable then ":OUTP:STAT CH1, ON" ++ LF else ":OUTP:STAT CH1, OFF" ++ LF in
  _execute_command (encode command_str) ;;
  ret tt.

(** [value == 'ON']: a float never equals a str. *)
Definition equals_str (value : decoded) (s : string) : bool :=
  match value with
  | Text t => String.eqb t s
  | Num _ => false
  end.

Definition is_output_enabled (self : PowerSupply) : M bool :=
  value <- _execute_command (encode (":OUTP:STAT? CH1 " ++ LF)) ;;
  ret (equals_str value "ON").

(** ** Client code inside [with PowerSupply(...) as supply:] *)

(** [try: c  except: h] *)
Definition try_except {A : Type} (c : M A) (h : exn -> M A) : M A :=
  fun w =>
    match c w with
    | (Ok a, w') => (Ok a, w')
    | (Raise e, w') => h e w'
    end.

(** The [with] statement: [__exit__] runs however the body ends; it
    returns [None], so an exception of the body goes on to the caller,
    unless [__exit__] raises itself. *)
Definition with_statement {A : Type} (self : PowerSupply)
    (body : PowerSupply -> M A) : M A :=
  fun w =>
    let '(outcome, w1) := body (__enter__ self) w in
    match __exit__ self w1 with
    | (Ok _, w2) => (outcome, w2)
    | (Raise e, w2) => (Raise e, w2)
    end.

(** Code that touches the port through the public methods of [self]
    only: any sequencing, branching on results, raising and catching. *)
Inductive client (self : PowerSupply) : forall A : Type, M A -> Prop :=
| client_ret A (a : A) : client self A (ret a)
| client_raise A (e : exn) : client self A (raise e)
| client_bind A B (c : M A) (k : A -> M B) :
    client self A c -> (forall a, client self B (k a)) ->
    client self B (bind c k)
| client_try A (c : M A) (h : exn -> M A) :
    client self A c -> (forall e, client self A (h e)) ->
    client self A (try_except c h)
| client_print line : client self unit (print line)
| client_set_baud_rate b : client self unit (set_baud_rate self b)
| client_set_output_voltage v : client self unit (set_output_voltage self v)
| client_get_requested_output_voltage :
    client self decoded (get_requested_output_voltage self)
| client_get_output_voltage : client self decoded (get_output_voltage self)
| client_set_output_current i : client self unit (set_output_current self i)
| client_get_requested_output_current :
    client self decoded (get_requested_output_current self)
| client_get_output_current : client self decoded (get_output_current self)
| client_get_output_power : client self decoded (get_output_power self)
| client_recall_from_memory i : client self unit (recall_from_memory self i)
| client_save_to_memory i : client self unit (save_to_memory self i)
| client_enable_output b : client self unit (enable_output self b)
| client_is_output_enabled : client self bool (is_output_enabled self).

End Driver.

(** ** Vocabulary of the statements *)

(** What the next [readline()] returns. *)
Definition reply (w : World) : bytes := hd [] (incoming w).

(** The world after [command] was written and one line was read. *)
Definition answered (command : bytes) (w : World) : World :=
  set_incoming (tl (incoming w)) (log (Write command) w).

(** The command of [__exit__]. *)
Definition local_command : bytes := encode (":SYST:LOC" ++ LF)%string.

(** Events client code may cause: anything but the teardown's. *)
Definition ordinary (e : event) : Prop :=
  e <> Write local_command /\ e <> Close.

(** A computation that keeps an open port open and causes ordinary
    events only. *)
Definition well_behaved {A : Type} (m : M A) : Prop :=
  forall w,
    is_open w = true ->
    is_open (snd (m w)) = true /\
    exists events,
      trace (snd (m w)) = trace w ++ events /\ Forall ordinary events.

(** The object [__init__] builds from four fields. *)
Definition built (manufacturer model serial software_version : string)
    (parameters : option limits) : PowerSupply :=
  {| _manufacturer := manufacturer; _model := model; _serial := serial;
     _software_version := software_version;
     _id := (manufacturer ++ " " ++ model ++ " " ++ software_version)%string;
     _max_voltage := option_map max_voltage parameters;
     _max_current := option_map max_current parameters |}.

(** A port name, and a world in which it can be opened and the device
    will send [lines]. *)
Definition sample_port : string := "/dev/ttyUSB0".

Definition bench (lines : list bytes) : World :=
  {| attached := [sample_port]; is_open := false; baudrate := 0;
     incoming := lines; trace := []; stdout := [] |}.

(** The same with the port already open. *)
Definition connected (lines : list bytes) : World := set_open true (bench lines).

(** The driver of a DP711 and of a model the table does not list. *)
Definition dp711 : PowerSupply :=
  built "RIGOL" "DP711" "SN123" "1.02" (lookup "DP711" MODEL_PARAMETERS).

Definition unlisted : PowerSupply :=
  built "RIGOL" "DP832" "SN123" "1.02" (lookup "DP832" MODEL_PARAMETERS).

(** A rendering of floats for running examples on [int] arguments,
    which never use it. *)
Definition no_repr (f : float) : string := "".

(** The driver of a DP712. *)
Definition dp712 : PowerSupply :=
  built "RIGOL" "DP712" "SN456" "1.02" (lookup "DP712" MODEL_PARAMETERS).

(** A write whose bytes end with the line feed; other events pass. *)
Definition terminated (e : event) : Prop :=
  match e with
  | Write data => exists body, data = body ++ ["010"%byte]
  | _ => True
  end.

(** A computation all of whose events satisfy [P], from any world. *)
Definition emits (P : event -> Prop) {A : Type} (m : M A) : Prop :=
  forall w,
    exists events, trace (snd (m w)) = trace w ++ events /\ Forall P events.

(** Whether a number is a NaN (only a float can be). *)
Definition is_nan (x : number) : bool :=
  match extended_of x with
  | NaN => true
  | _ => false
  end.

(** * Facts *)

(** ** The port and the execution primitive *)

Lemma readline_open w :
  is_open w = true ->
  Serial.readline w = (Ok (reply w), set_incoming (tl (incoming w)) w).
Proof.
  intros Hopen. unfold Serial.readline, reply. rewrite Hopen.
  destruct w as [att o b inc tr out]; simpl in *.
  destruct inc; reflexivity.
Qed.

Lemma execute_command_open command w :
  is_open w = true ->
  _execute_command command w =
    (_decode_response (removelast (reply w)), answered command w).
Proof.
  intros Hopen. unfold _execute_command, bind, Serial.write, lift.
  rewrite Hopen.
  rewrite readline_open by exact Hopen.
  reflexivity.
Qed.

Lemma execute_command_closed command w :
  is_open w = false ->
  _execute_command command w = (Raise PortNotOpenError, w).
Proof.
  intros Hclosed. unfold _execute_command, bind, Serial.write.
  rewrite Hclosed. reflexivity.
Qed.

Lemma answered_open command w : is_open (answered command w) = is_open w.
Proof. reflexivity. Qed.

Lemma answered_trace command w :
  trace (answered command w) = trace w ++ [Write command].
Proof. reflexivity. Qed.

Lemma decode_empty : _decode_response [] = Ok (Text "").
Proof. reflexivity. Qed.

Lemma decode_number response value :
  PyFloat.of_bytes response = Some value ->
  _decode_response response = Ok (Num value).
Proof. intros H. unfold _decode_response. rewrite H. reflexivity. Qed.


Lemma decode_text_inv response s :
  _decode_response response = Ok (Text s) ->
  PyFloat.of_bytes response = None /\ Utf8.valid response = true /\
  response = encode s.
Proof.
  unfold _decode_response, Utf8.decode.
  destruct (PyFloat.of_bytes response) as [x|]; [discriminate|].
  destruct (Utf8.valid response); [|discriminate].
  intros H. injection H as <-.
  repeat split. unfold encode, text_of.
  symmetry. apply list_byte_of_string_of_list_byte.
Qed.

(** The reply [b'ON'] and no other is decoded as the text ['ON']. *)
Lemma decode_on response :
  _decode_response response = Ok (Text "ON") <-> response = encode "ON".
Proof.
  split.
  - intros H. apply decode_text_inv in H. tauto.
  - intros ->. reflexivity.
Qed.

Lemma is_output_enabled_open self w :
  is_open w = true ->
  is_output_enabled self w =
    (match _decode_response (removelast (reply w)) with
     | Ok value => Ok (equals_str value "ON")
     | Raise e => Raise e
     end,
     answered (encode (":OUTP:STAT? CH1 " ++ LF)%string) w).
Proof.
  intros Hopen. unfold is_output_enabled, bind.
  rewrite execute_command_open by exact Hopen.
  destruct (_decode_response (removelast (reply w))); reflexivity.
Qed.

Lemma equals_str_true value s : equals_str value s = true <-> value = Text s.
Proof.
  destruct value as [f|t]; simpl.
  - split; discriminate.
  - rewrite String.eqb_eq. split; [intros ->; reflexivity | congruence].
Qed.

(** ** Decoding of replies *)

(** C10: [_execute_command] decodes the line read without its last
    byte, whatever that byte is (a line feed or, for a line cut short by
    the timeout, the last byte of the payload); an empty read is decoded
    as the empty string. *)
Theorem execute_command_drops_last_byte command w :
  is_open w = true ->
  (forall payload last,
      reply w = payload ++ [last] ->
      fst (_execute_command command w) = _decode_response payload) /\
  (reply w = [] ->
      fst (_execute_command command w) = Ok (Text "")).
Proof.
  intros Hopen. rewrite execute_command_open by exact Hopen. simpl fst.
  split.
  - intros payload last ->. rewrite removelast_last. reflexivity.
  - intros ->. reflexivity.
Qed.

(** C8 (as amended): a read that times out with no data is not an error
    for [_execute_command]: the command has been written, the result is
    the empty string, and nothing is raised. *)
Theorem execute_command_timeout command w :
  is_open w = true ->
  reply w = [] ->
  _execute_command command w = (Ok (Text ""), answered command w).
Proof.
  intros Hopen Hreply.
  rewrite execute_command_open by exact Hopen.
  rewrite Hreply. reflexivity.
Qed.

(** C5: [is_output_enabled] answers [True] exactly when the decoded
    reply is the text ['ON']; every other decoded value, a number or a
    text such as ['OFF'], gives [False]. *)
Theorem is_output_enabled_iff_on self w :
  is_open w = true ->
  (fst (is_output_enabled self w) = Ok true <->
     _decode_response (removelast (reply w)) = Ok (Text "ON")) /\
  (forall value,
      _decode_response (removelast (reply w)) = Ok value ->
      value <> Text "ON" ->
      fst (is_output_enabled self w) = Ok false) /\
  (forall f,
      _decode_response (removelast (reply w)) = Ok (Num f) ->
      fst (is_output_enabled self w) = Ok false) /\
  (_decode_response (removelast (reply w)) = Ok (Text "OFF") ->
      fst (is_output_enabled self w) = Ok false).
Proof.
  intros Hopen. rewrite is_output_enabled_open by exact Hopen. simpl fst.
  destruct (_decode_response (removelast (reply w))) as [value|e].
  - repeat split.
    + intros H. injection H as H. apply equals_str_true in H. congruence.
    + intros H. injection H as ->. reflexivity.
    + intros v Hv Hneq. injection Hv as <-.
      destruct (equals_str value "ON") eqn:E; [|reflexivity].
      apply equals_str_true in E. contradiction.
    + intros f H. injection H as ->. reflexivity.
    + intros H. injection H as ->. reflexivity.
  - repeat split; discriminate.
Qed.

(** ** Construction *)

(** The world in which [__init__] reads the identification. *)
Lemma open_ok port baud w :
  Serial.can_open port w = true ->
  0 <= baud ->
  Serial.open port baud w = (Ok tt, set_open true (set_baudrate baud w)).
Proof.
  intros Hport Hbaud. unfold Serial.open, Serial.set_rate, bind.
  destruct (Z.ltb_spec baud 0) as [Hneg|_]; [lia|].
  unfold modify.
  replace (Serial.can_open port (set_baudrate baud w)) with true.
  reflexivity.
Qed.

Lemma identification_text w s :
  is_open w = true ->
  _decode_response (removelast (reply w)) = Ok (Text s) ->
  _get_device_identification w =
    (match split comma s with
     | manufacturer :: model :: serial :: software_version :: _ =>
         Ok (manufacturer, model, serial, software_version)
     | _ => Raise IndexError
     end,
     answered (encode ("*IDN?" ++ LF)%string) w).
Proof.
  intros Hopen Hdecode. unfold _get_device_identification, bind.
  rewrite execute_command_open by exact Hopen.
  rewrite Hdecode.
  destruct (split comma s) as [|f0 [|f1 [|f2 [|f3 extra]]]] eqn:E;
    reflexivity.
Qed.

Lemma split_nonempty sep s : split sep s <> [].
Proof.
  destruct s as [|c rest]; simpl; [discriminate|].
  destruct (Ascii.eqb c sep); [discriminate|].
  destruct (split sep rest); discriminate.
Qed.

Lemma init_text port baud w s :
  Serial.can_open port w = true ->
  0 <= baud ->
  _decode_response (removelast (reply w)) = Ok (Text s) ->
  let w1 := answered (encode ("*IDN?" ++ LF)%string)
              (set_open true (set_baudrate baud w)) in
  __init__ port baud w =
    match split comma s with
    | manufacturer :: model :: serial :: software_version :: _ =>
        let parameters := lookup model MODEL_PARAMETERS in
        (Ok (built manufacturer model serial software_version parameters),
         match parameters with
         | Some _ => w1
         | None => put_line ("<WARNING> " ++ model ++ " is unsupported!")%string w1
         end)
    | _ => (Raise IndexError, w1)
    end.
Proof.
  intros Hport Hbaud Hdecode w1. unfold __init__, bind.
  rewrite open_ok by assumption.
  rewrite (identification_text _ s) by (try reflexivity; exact Hdecode).
  fold w1.
  destruct (split comma s) as [|f0 [|f1 [|f2 [|f3 extra]]]]; try reflexivity.
  cbv zeta.
  destruct (lookup f1 MODEL_PARAMETERS); reflexivity.
Qed.

(** C4: for the identification line [RIGOL,DP711,SN123,1.02] the
    constructor succeeds, the identification is [RIGOL DP711 1.02] and
    the limits are those of the DP711: 30.0 volts and 5.0 amperes. *)
Theorem init_dp711 port baud w :
  Serial.can_open port w = true ->
  0 <= baud ->
  reply w = encode ("RIGOL,DP711,SN123,1.02" ++ LF)%string ->
  exists self w',
    __init__ port baud w = (Ok self, w') /\
    get_identification self = "RIGOL DP711 1.02"%string /\
    _max_voltage self = Some (literal 300 (-1)) /\
    _max_current self = Some (literal 50 (-1)) /\
    compare (PyFloat (literal 300 (-1))) (PyInt 30) = Some Eq /\
    compare (PyFloat (literal 50 (-1))) (PyInt 5) = Some Eq.
Proof.
  intros Hport Hbaud Hreply.
  assert (Hdecode : _decode_response (removelast (reply w)) =
                    Ok (Text "RIGOL,DP711,SN123,1.02")).
  { rewrite Hreply. vm_compute. reflexivity. }
  pose proof (init_text port baud w _ Hport Hbaud Hdecode) as Hinit.
  cbv zeta in Hinit.
  change (split comma "RIGOL,DP711,SN123,1.02")
    with ["RIGOL"; "DP711"; "SN123"; "1.02"]%string in Hinit.
  change (lookup "DP711" MODEL_PARAMETERS)
    with (Some {| max_voltage := literal 300 (-1);
                  max_current := literal 50 (-1) |}) in Hinit.
  eexists. eexists. split; [exact Hinit|].
  repeat split; vm_compute; reflexivity.
Qed.

(** C7 (as amended): when the identification reply is a text, the
    constructor raises (an [IndexError]) exactly when the text has fewer
    than four comma-separated fields; with four fields or more it
    succeeds on the first four and ignores the others. *)
Theorem init_needs_four_fields port baud w s :
  Serial.can_open port w = true ->
  0 <= baud ->
  _decode_response (removelast (reply w)) = Ok (Text s) ->
  ((List.length (split comma s) < 4)%nat <->
     fst (__init__ port baud w) = Raise IndexError) /\
  ((4 <= List.length (split comma s))%nat <->
     exists self,
       fst (__init__ port baud w) = Ok self /\
       [_manufacturer self; _model self; _serial self; _software_version self]
         = firstn 4 (split comma s)).
Proof.
  intros Hport Hbaud Hdecode.
  rewrite (init_text port baud w s Hport Hbaud Hdecode). cbv zeta.
  destruct (split comma s) as [|f0 [|f1 [|f2 [|f3 extra]]]];
    cbn [List.length fst firstn].
  1-4: split;
       [ split; [reflexivity | intros _; lia]
       | split; [lia | intros [self [H _]]; discriminate H] ].
  split; split.
  - lia.
  - discriminate.
  - intros _. eexists. split; reflexivity.
  - intros _. lia.
Qed.

(** ** Commands with a formatted argument *)

Lemma py_gt_not_le a b : py_gt a b = true -> py_le a b = false.
Proof.
  unfold py_gt, py_le.
  destruct (compare a b) as [[]|]; intros H; (discriminate H || reflexivity).
Qed.

Lemma compare_int a b : compare (PyInt a) (PyInt b) = Some (a ?= b).
Proof.
  unfold compare, extended_compare, extended_of.
  change (Z.min 0 0) with 0. change (2 ^ (0 - 0)) with 1.
  rewrite !Z.mul_1_r. reflexivity.
Qed.

(** The guard of [recall_from_memory] and [save_to_memory] holds for
    every [int]. *)
Lemma memory_guard index :
  py_ge (PyInt index) (PyInt 1) || py_le (PyInt index) (PyInt 10) = true.
Proof.
  unfold py_ge, py_le. rewrite !compare_int.
  destruct (Z.compare_spec index 1) as [H|H|H]; try reflexivity.
  destruct (Z.compare_spec index 10) as [H'|H'|H']; try reflexivity.
  lia.
Qed.

Section Formatted.

Variable float_repr : float -> string.

(** A command whose reply is discarded. *)
Lemma discard_reply command w :
  is_open w = true ->
  (_execute_command command ;; ret tt) w =
    (match _decode_response (removelast (reply w)) with
     | Ok _ => Ok tt
     | Raise e => Raise e
     end, answered command w).
Proof.
  intros Hopen. unfold bind.
  rewrite execute_command_open by exact Hopen.
  destruct (_decode_response (removelast (reply w))); reflexivity.
Qed.

Lemma set_output_voltage_sends self voltage w :
  within (_max_voltage self) voltage = true ->
  is_open w = true ->
  snd (set_output_voltage float_repr self voltage w) =
    answered (encode (":VOLT " ++ format_number float_repr voltage ++ LF)%string) w.
Proof.
  intros Hguard Hopen. unfold set_output_voltage. rewrite Hguard.
  rewrite discard_reply by exact Hopen. reflexivity.
Qed.

Lemma set_output_current_sends self current w :
  within (_max_current self) current = true ->
  is_open w = true ->
  snd (set_output_current float_repr self current w) =
    answered (encode (":CURR " ++ format_number float_repr current ++ LF)%string) w.
Proof.
  intros Hguard Hopen. unfold set_output_current. rewrite Hguard.
  rewrite discard_reply by exact Hopen. reflexivity.
Qed.

(** C1: with a known voltage limit, [set_output_voltage(v)] writes the
    bytes of [:VOLT ], the formatted [v] and a line feed when
    [v <= max_voltage], and leaves the port untouched when
    [v > max_voltage]. *)
Theorem set_output_voltage_limit self limit voltage w :
  _max_voltage self = Some limit ->
  is_open w = true ->
  (py_le voltage (PyFloat limit) = true ->
     trace (snd (set_output_voltage float_repr self voltage w)) =
       trace w ++
       [Write (encode (":VOLT " ++ format_number float_repr voltage ++ LF)%string)]) /\
  (py_gt voltage (PyFloat limit) = true ->
     set_output_voltage float_repr self voltage w = (Ok tt, w)).
Proof.
  intros Hlimit Hopen. split.
  - intros Hle. rewrite set_output_voltage_sends.
    + reflexivity.
    + rewrite Hlimit. exact Hle.
    + exact Hopen.
  - intros Hgt. unfold set_output_voltage. rewrite Hlimit. cbn [within].
    rewrite (py_gt_not_le _ _ Hgt). reflexivity.
Qed.

(** C2: for every integer index, 0 and 11 included, the guard
    [index >= 1 or index <= 10] is true and [recall_from_memory] and
    [save_to_memory] write their command. *)
Theorem memory_commands_any_index self index w :
  is_open w = true ->
  py_ge (PyInt index) (PyInt 1) || py_le (PyInt index) (PyInt 10) = true /\
  trace (snd (recall_from_memory float_repr self (PyInt index) w)) =
    trace w ++ [Write (encode (":MEM:LOAD RSF," ++ format_int index ++ LF)%string)] /\
  trace (snd (save_to_memory float_repr self (PyInt index) w)) =
    trace w ++ [Write (encode (":MEM:STOR RSF," ++ format_int index ++ LF)%string)].
Proof.
  intros Hopen.
  split; [apply memory_guard|].
  unfold recall_from_memory, save_to_memory.
  rewrite memory_guard.
  rewrite !discard_reply by exact Hopen.
  split; reflexivity.
Qed.

(** C3: when the identification names a model the table does not list,
    the constructor returns normally, prints a warning, leaves both
    limits at [None], and from then on [set_output_voltage] and
    [set_output_current] write their command whatever the value. *)
Theorem unsupported_model_disables_limits
    port baud w s manufacturer model serial software_version extra :
  Serial.can_open port w = true ->
  0 <= baud ->
  _decode_response (removelast (reply w)) = Ok (Text s) ->
  split comma s = manufacturer :: model :: serial :: software_version :: extra ->
  lookup model MODEL_PARAMETERS = None ->
  exists self w',
    __init__ port baud w = (Ok self, w') /\
    _model self = model /\
    stdout w' = stdout w ++ [("<WARNING> " ++ model ++ " is unsupported!")%string] /\
    _max_voltage self = None /\
    _max_current self = None /\
    (forall voltage w1,
        is_open w1 = true ->
        trace (snd (set_output_voltage float_repr self voltage w1)) =
          trace w1 ++
          [Write (encode (":VOLT " ++ format_number float_repr voltage ++ LF)%string)]) /\
    (forall current w1,
        is_open w1 = true ->
        trace (snd (set_output_current float_repr self current w1)) =
          trace w1 ++
          [Write (encode (":CURR " ++ format_number float_repr current ++ LF)%string)]).
Proof.
  intros Hport Hbaud Hdecode Hsplit Hlookup.
  pose proof (init_text port baud w s Hport Hbaud Hdecode) as Hinit.
  cbv zeta in Hinit. rewrite Hsplit, Hlookup in Hinit.
  eexists. eexists. split; [exact Hinit|].
  repeat split.
  - intros voltage w1 Hopen.
    rewrite set_output_voltage_sends; [reflexivity | reflexivity | exact Hopen].
  - intros current w1 Hopen.
    rewrite set_output_current_sends; [reflexivity | reflexivity | exact Hopen].
Qed.

(** ** The scope of a [with] statement *)

Lemma well_behaved_ret A (a : A) : well_behaved (ret a).
Proof.
  intros w Hopen. split; [exact Hopen|].
  exists []. rewrite app_nil_r. split; [reflexivity | constructor].
Qed.

Lemma well_behaved_raise A (e : exn) : well_behaved (@raise A e).
Proof.
  intros w Hopen. split; [exact Hopen|].
  exists []. rewrite app_nil_r. split; [reflexivity | constructor].
Qed.

Lemma well_behaved_bind A B (c : M A) (k : A -> M B) :
  well_behaved c -> (forall a, well_behaved (k a)) -> well_behaved (bind c k).
Proof.
  intros Hc Hk w Hopen. unfold bind.
  destruct (Hc w Hopen) as [Hopen1 [ev1 [Htrace1 Hord1]]].
  destruct (c w) as [[a|e] w1]; simpl in *.
  - destruct (Hk a w1 Hopen1) as [Hopen2 [ev2 [Htrace2 Hord2]]].
    split; [exact Hopen2|].
    exists (ev1 ++ ev2). split.
    + rewrite Htrace2, Htrace1, app_assoc. reflexivity.
    + apply Forall_app. split; assumption.
  - split; [exact Hopen1|]. exists ev1. split; assumption.
Qed.

Lemma well_behaved_try A (c : M A) (h : exn -> M A) :
  well_behaved c -> (forall e, well_behaved (h e)) ->
  well_behaved (try_except c h).
Proof.
  intros Hc Hh w Hopen. unfold try_except.
  destruct (Hc w Hopen) as [Hopen1 [ev1 [Htrace1 Hord1]]].
  destruct (c w) as [[a|e] w1]; simpl in *.
  - split; [exact Hopen1|]. exists ev1. split; assumption.
  - destruct (Hh e w1 Hopen1) as [Hopen2 [ev2 [Htrace2 Hord2]]].
    split; [exact Hopen2|].
    exists (ev1 ++ ev2). split.
    + rewrite Htrace2, Htrace1, app_assoc. reflexivity.
    + apply Forall_app. split; assumption.
Qed.

Lemma well_behaved_print line : well_behaved (print line).
Proof.
  intros w Hopen. split; [exact Hopen|].
  exists []. simpl. rewrite app_nil_r. split; [reflexivity | constructor].
Qed.

Lemma well_behaved_execute command :
  command <> local_command -> well_behaved (_execute_command command).
Proof.
  intros Hneq w Hopen.
  rewrite execute_command_open by exact Hopen. simpl snd.
  split; [exact Hopen|].
  exists [Write command]. split; [reflexivity|].
  constructor; [|constructor].
  split; [congruence | discriminate].
Qed.

Lemma well_behaved_flush : well_behaved Serial.flush.
Proof.
  intros w Hopen. unfold Serial.flush. rewrite Hopen. simpl.
  split; [exact Hopen|].
  exists [Flush]. split; [reflexivity|].
  constructor; [|constructor]. split; discriminate.
Qed.

Lemma well_behaved_set_rate b : well_behaved (Serial.set_rate b).
Proof.
  intros w Hopen. unfold Serial.set_rate.
  destruct (b <? 0); simpl; (split; [exact Hopen|]);
    exists []; rewrite app_nil_r; (split; [reflexivity | constructor]).
Qed.

(** No command of a public method is the teardown's: each differs from
    [:SYST:LOC] within its first seven bytes. *)
Ltac other_command :=
  let H := fresh in
  unfold local_command, encode; intros H; cbn in H; discriminate H.

Ltac method_well_behaved :=
  repeat first
    [ apply well_behaved_ret
    | apply well_behaved_flush
    | apply well_behaved_set_rate
    | apply well_behaved_execute; other_command
    | apply well_behaved_bind; [|intros ?] ].

Lemma public_methods_well_behaved self A (m : M A) :
  client float_repr self A m -> well_behaved m.
Proof.
  induction 1.
  - apply well_behaved_ret.
  - apply well_behaved_raise.
  - apply well_behaved_bind; assumption.
  - apply well_behaved_try; assumption.
  - apply well_behaved_print.
  - unfold set_baud_rate. method_well_behaved.
  - unfold set_output_voltage.
    destruct (within _ _); method_well_behaved.
  - unfold get_requested_output_voltage. method_well_behaved.
  - unfold get_output_voltage. method_well_behaved.
  - unfold set_output_current.
    destruct (within _ _); method_well_behaved.
  - unfold get_requested_output_current. method_well_behaved.
  - unfold get_output_current. method_well_behaved.
  - unfold get_output_power. method_well_behaved.
  - unfold recall_from_memory.
    destruct (_ || _); method_well_behaved.
  - unfold save_to_memory.
    destruct (_ || _); method_well_behaved.
  - unfold enable_output. destruct b; method_well_behaved.
  - unfold is_output_enabled. method_well_behaved.
Qed.

Lemma exit_open self w :
  is_open w = true ->
  __exit__ self w =
    match _decode_response (removelast (reply w)) with
    | Ok _ => (Ok tt, set_open false (log Close (answered local_command w)))
    | Raise e => (Raise e, answered local_command w)
    end.
Proof.
  intros Hopen. unfold __exit__, bind.
  rewrite execute_command_open by exact Hopen.
  fold local_command.
  destruct (_decode_response (removelast (reply w))); [|reflexivity].
  unfold Serial.close. rewrite answered_open, Hopen. reflexivity.
Qed.

(** C9: however the body of the [with] statement ends, normally or by
    an exception, the events of the scope are those of the body, none
    of which is the command [:SYST:LOC] or a close, then one write of
    [:SYST:LOC] with its line feed, then at most the close of the port
    (which follows when the reply to that command could be decoded). *)
Theorem teardown_writes_local_once A self (body : PowerSupply -> M A) w :
  client float_repr self A (body (__enter__ self)) ->
  is_open w = true ->
  exists events closing,
    trace (snd (with_statement self body w)) =
      trace w ++ events ++ [Write local_command] ++ closing /\
    Forall ordinary events /\
    closing =
      match _decode_response (removelast (reply (snd (body (__enter__ self) w)))) with
      | Ok _ => [Close]
      | Raise _ => []
      end.
Proof.
  intros Hclient Hopen.
  destruct (public_methods_well_behaved _ _ _ Hclient w Hopen)
    as [Hopen1 [events [Htrace Hord]]].
  unfold with_statement.
  destruct (body (__enter__ self) w) as [outcome w1]; simpl in *.
  rewrite exit_open by exact Hopen1.
  exists events.
  destruct (_decode_response (removelast (reply w1))) as [v|e];
    eexists; (split; [|split; [exact Hord | reflexivity]]); simpl.
  - rewrite Htrace, <- !app_assoc. reflexivity.
  - rewrite Htrace, <- !app_assoc. reflexivity.
Qed.

End Formatted.

(** After a successful construction the port is open, as the theorems
    on the methods assume. *)
Lemma init_leaves_port_open port baud w self w' :
  __init__ port baud w = (Ok self, w') -> is_open w' = true.
Proof.
  unfold __init__, bind, Serial.open, Serial.set_rate, bind.
  destruct (baud <? 0); [discriminate|].
  unfold modify.
  destruct (Serial.can_open port (set_baudrate baud w)); [|discriminate].
  set (w0 := set_open true (set_baudrate baud w)).
  unfold _get_device_identification, bind.
  rewrite execute_command_open by reflexivity.
  destruct (_decode_response (removelast (reply w0))) as [[f|s]|e];
    try discriminate.
  unfold item, ret, raise.
  destruct (split comma s) as [|f0 [|f1 [|f2 [|f3 extra]]]];
    try discriminate.
  cbn [nth_error].
  destruct (lookup f1 MODEL_PARAMETERS); unfold print, modify;
    intros H; injection H as _ <-; reflexivity.
Qed.

(** ** The command of [is_output_enabled] *)

Lemma is_output_enabled_writes self w :
  is_open w = true ->
  trace (snd (is_output_enabled self w)) =
    trace w ++ [Write (encode (":OUTP:STAT? CH1 " ++ LF)%string)].
Proof.
  intros Hopen. rewrite is_output_enabled_open by exact Hopen. reflexivity.
Qed.

(** C6 (a defect of the code): on a DP711 answering [ON],
    [is_output_enabled] writes [:OUTP:STAT? CH1], a space, and the line
    feed; these are not the bytes of [:OUTP:STAT? CH1] followed by the
    line feed, the shape every other query of the driver has. *)
Example is_output_enabled_writes_a_space :
  fst (is_output_enabled dp711 (connected [encode ("ON" ++ LF)%string])) = Ok true /\
  trace (snd (is_output_enabled dp711 (connected [encode ("ON" ++ LF)%string]))) =
    [Write (encode (":OUTP:STAT? CH1 " ++ LF)%string)] /\
  encode (":OUTP:STAT? CH1 " ++ LF)%string <> encode (":OUTP:STAT? CH1" ++ LF)%string.
Proof.
  split; [reflexivity|].
  split; [reflexivity|].
  intros H. vm_compute in H. discriminate H.
Qed.

(** ** The claims that fail, at concrete inputs *)

(** C7 (counterexample): a reply of five comma-separated fields is not
    refused: the constructor returns the driver built from the first
    four. *)
Lemma five_fields_accepted :
  let line := encode ("RIGOL,DP711,SN123,1.02,extra" ++ LF)%string in
  _decode_response (removelast line) = Ok (Text "RIGOL,DP711,SN123,1.02,extra") /\
  List.length (split comma "RIGOL,DP711,SN123,1.02,extra") = 5%nat /\
  fst (__init__ sample_port default_baudrate (bench [line])) = Ok dp711.
Proof. vm_compute. repeat split. Qed.

(** C8 (counterexample): with a read that times out with no data,
    [get_output_voltage] raises nothing and returns the empty string. *)
Lemma timeout_returns_empty_text :
  reply (connected []) = [] /\
  fst (get_output_voltage dp711 (connected [])) = Ok (Text "").
Proof. split; reflexivity. Qed.

(** ** Instances *)

Lemma set_output_voltage_limit_witness :
  _max_voltage dp711 = Some (literal 300 (-1)) /\
  is_open (connected []) = true /\
  py_le (PyInt 12) (PyFloat (literal 300 (-1))) = true /\
  py_gt (PyInt 31) (PyFloat (literal 300 (-1))) = true /\
  trace (snd (set_output_voltage no_repr dp711 (PyInt 12) (connected []))) =
    [Write (encode (":VOLT 12" ++ LF)%string)] /\
  set_output_voltage no_repr dp711 (PyInt 31) (connected []) =
    (Ok tt, connected []).
Proof.
  do 4 (split; [reflexivity|]).
  split.
  - apply (proj1 (set_output_voltage_limit no_repr dp711 (literal 300 (-1))
                    (PyInt 12) (connected []) eq_refl eq_refl)).
    reflexivity.
  - apply (proj2 (set_output_voltage_limit no_repr dp711 (literal 300 (-1))
                    (PyInt 31) (connected []) eq_refl eq_refl)).
    reflexivity.
Defined.

Lemma memory_commands_any_index_witness :
  is_open (connected []) = true /\
  trace (snd (recall_from_memory no_repr dp711 (PyInt 0) (connected []))) =
    [Write (encode (":MEM:LOAD RSF,0" ++ LF)%string)] /\
  trace (snd (save_to_memory no_repr dp711 (PyInt 11) (connected []))) =
    [Write (encode (":MEM:STOR RSF,11" ++ LF)%string)].
Proof.
  split; [reflexivity|].
  split.
  - apply (memory_commands_any_index no_repr dp711 0 (connected []) eq_refl).
  - apply (memory_commands_any_index no_repr dp711 11 (connected []) eq_refl).
Defined.

Lemma unsupported_model_disables_limits_witness :
  let w := bench [encode ("RIGOL,DP832,SN123,1.02" ++ LF)%string] in
  Serial.can_open sample_port w = true /\
  0 <= default_baudrate /\
  _decode_response (removelast (reply w)) = Ok (Text "RIGOL,DP832,SN123,1.02") /\
  split comma "RIGOL,DP832,SN123,1.02" = ["RIGOL"; "DP832"; "SN123"; "1.02"]%string /\
  lookup "DP832" MODEL_PARAMETERS = @None limits /\
  exists self w',
    __init__ sample_port default_baudrate w = (Ok self, w') /\
    _model self = "DP832"%string /\
    stdout w' = stdout w ++ ["<WARNING> DP832 is unsupported!"%string] /\
    _max_voltage self = None /\
    _max_current self = None /\
    (forall voltage w1,
        is_open w1 = true ->
        trace (snd (set_output_voltage no_repr self voltage w1)) =
          trace w1 ++
          [Write (encode (":VOLT " ++ format_number no_repr voltage ++ LF)%string)]) /\
    (forall current w1,
        is_open w1 = true ->
        trace (snd (set_output_current no_repr self current w1)) =
          trace w1 ++
          [Write (encode (":CURR " ++ format_number no_repr current ++ LF)%string)]).
Proof.
  intros w.
  split; [reflexivity|].
  split; [unfold default_baudrate; lia|].
  split; [reflexivity|].
  split; [reflexivity|].
  split; [reflexivity|].
  apply (unsupported_model_disables_limits no_repr sample_port default_baudrate w
           "RIGOL,DP832,SN123,1.02" "RIGOL" "DP832" "SN123" "1.02" []).
  - reflexivity.
  - unfold default_baudrate; lia.
  - reflexivity.
  - reflexivity.
  - reflexivity.
Defined.

Lemma init_dp711_witness :
  let w := bench [encode ("RIGOL,DP711,SN123,1.02" ++ LF)%string] in
  Serial.can_open sample_port w = true /\
  0 <= default_baudrate /\
  reply w = encode ("RIGOL,DP711,SN123,1.02" ++ LF)%string /\
  exists self w',
    __init__ sample_port default_baudrate w = (Ok self, w') /\
    get_identification self = "RIGOL DP711 1.02"%string /\
    _max_voltage self = Some (literal 300 (-1)) /\
    _max_current self = Some (literal 50 (-1)) /\
    compare (PyFloat (literal 300 (-1))) (PyInt 30) = Some Eq /\
    compare (PyFloat (literal 50 (-1))) (PyInt 5) = Some Eq.
Proof.
  intros w.
  split; [reflexivity|].
  split; [unfold default_baudrate; lia|].
  split; [reflexivity|].
  apply (init_dp711 sample_port default_baudrate w).
  - reflexivity.
  - unfold default_baudrate; lia.
  - reflexivity.
Defined.

Lemma is_output_enabled_iff_on_witness :
  let w := connected [encode ("ON" ++ LF)%string] in
  is_open w = true /\
  _decode_response (removelast (reply w)) = Ok (Text "ON") /\
  fst (is_output_enabled dp711 w) = Ok true.
Proof.
  intros w.
  split; [reflexivity|].
  split; [reflexivity|].
  apply (proj1 (is_output_enabled_iff_on dp711 w eq_refl)).
  reflexivity.
Defined.

Lemma init_needs_four_fields_witness :
  let w := bench [encode ("RIGOL,DP711" ++ LF)%string] in
  Serial.can_open sample_port w = true /\
  0 <= default_baudrate /\
  _decode_response (removelast (reply w)) = Ok (Text "RIGOL,DP711") /\
  (List.length (split comma "RIGOL,DP711") < 4)%nat /\
  fst (__init__ sample_port default_baudrate w) = Raise IndexError.
Proof.
  intros w.
  split; [reflexivity|].
  split; [unfold default_baudrate; lia|].
  split; [reflexivity|].
  split; [simpl; lia|].
  apply (proj1 (init_needs_four_fields sample_port default_baudrate w
                  "RIGOL,DP711" eq_refl
                  (Z.lt_le_incl 0 default_baudrate eq_refl) eq_refl)).
  simpl; lia.
Defined.

Lemma execute_command_timeout_witness :
  let w := connected [] in
  is_open w = true /\
  reply w = [] /\
  _execute_command (encode (":VOLT?" ++ LF)%string) w =
    (Ok (Text ""), answered (encode (":VOLT?" ++ LF)%string) w).
Proof.
  intros w.
  split; [reflexivity|].
  split; [reflexivity|].
  apply (execute_command_timeout (encode (":VOLT?" ++ LF)%string) w);
    reflexivity.
Defined.

Lemma execute_command_drops_last_byte_witness :
  let w := connected [encode "12.57"] in
  is_open w = true /\
  reply w = encode "12.5" ++ ["7"%byte] /\
  fst (_execute_command (encode (":VOLT?" ++ LF)%string) w) =
    _decode_response (encode "12.5").
Proof.
  intros w.
  split; [reflexivity|].
  split; [reflexivity|].
  apply (proj1 (execute_command_drops_last_byte
                  (encode (":VOLT?" ++ LF)%string) w eq_refl)
           (encode "12.5") "7"%byte).
  reflexivity.
Defined.

Lemma teardown_writes_local_once_witness :
  let w := connected [encode LF; [xff; x0a]] in
  let body := fun supply : PowerSupply =>
                set_output_voltage no_repr supply (PyInt 5) ;;
                is_output_enabled supply in
  client no_repr dp711 bool (body (__enter__ dp711)) /\
  is_open w = true /\
  exists events closing,
    trace (snd (with_statement dp711 body w)) =
      trace w ++ events ++ [Write local_command] ++ closing /\
    Forall ordinary events /\
    closing =
      match _decode_response (removelast (reply (snd (body (__enter__ dp711) w)))) with
      | Ok _ => [Close]
      | Raise _ => []
      end.
Proof.
  intros w body.
  assert (Hclient : client no_repr dp711 bool (body (__enter__ dp711))).
  { unfold body. apply client_bind.
    - apply client_set_output_voltage.
    - intros _. apply client_is_output_enabled. }
  split; [exact Hclient|].
  split; [reflexivity|].
  apply (teardown_writes_local_once no_repr bool dp711 body w Hclient eq_refl).
Defined.

(** * Further properties of the driver *)

(** ** Decoding *)

Lemma decode_raise_inv response e :
  _decode_response response = Raise e -> e = UnicodeDecodeError.
Proof.
  unfold _decode_response, Utf8.decode.
  destruct (PyFloat.of_bytes response); [discriminate|].
  destruct (Utf8.valid response); [discriminate|].
  intros H. injection H as <-. reflexivity.
Qed.




(** X3: on an open port [_execute_command] always writes its command
    and takes one line off the input, also when it raises; the only
    exception it can raise there is [UnicodeDecodeError]. *)
Theorem execute_command_effects command w :
  is_open w = true ->
  trace (snd (_execute_command command w)) = trace w ++ [Write command] /\
  incoming (snd (_execute_command command w)) = tl (incoming w) /\
  (forall e, fst (_execute_command command w) = Raise e ->
             e = UnicodeDecodeError).
Proof.
  intros Hopen. rewrite execute_command_open by exact Hopen.
  repeat split.
  simpl fst. intros e H. apply decode_raise_inv in H. exact H.
Qed.

(** ** White space after a number *)

Lemma space_not_underscore b :
  PyFloat.is_space b = true -> Byte.eqb "_"%byte b = false.
Proof. destruct b; intros H; (reflexivity || discriminate H). Qed.

Lemma has_underscore_space p b :
  PyFloat.is_space b = true ->
  PyFloat.has_underscore (p ++ [b]) = PyFloat.has_underscore p.
Proof.
  intros Hb. unfold PyFloat.has_underscore.
  rewrite existsb_app. simpl.
  rewrite (space_not_underscore b Hb). rewrite !orb_false_r. reflexivity.
Qed.

Lemma lstrip_space p b :
  PyFloat.is_space b = true ->
  PyFloat.lstrip (p ++ [b]) =
    match PyFloat.lstrip p with
    | [] => []
    | s => s ++ [b]
    end.
Proof.
  intros Hb. induction p as [|c rest IH]; cbn [app PyFloat.lstrip].
  - rewrite Hb. reflexivity.
  - destruct (PyFloat.is_space c); [exact IH | reflexivity].
Qed.

Lemma rstrip_space s b :
  PyFloat.is_space b = true -> PyFloat.rstrip (s ++ [b]) = PyFloat.rstrip s.
Proof.
  intros Hb. unfold PyFloat.rstrip.
  rewrite rev_app_distr. cbn [rev app PyFloat.lstrip]. rewrite Hb.
  reflexivity.
Qed.

Lemma from_string_inner_space p b :
  PyFloat.is_space b = true ->
  PyFloat.from_string_inner (p ++ [b]) = PyFloat.from_string_inner p.
Proof.
  intros Hb. unfold PyFloat.from_string_inner.
  rewrite (lstrip_space p b Hb).
  destruct (PyFloat.lstrip p) as [|c s]; [reflexivity|].
  change ((c :: s) ++ [b]) with (c :: (s ++ [b])).
  cbv iota.
  change (c :: (s ++ [b])) with ((c :: s) ++ [b]).
  rewrite (rstrip_space (c :: s) b Hb). reflexivity.
Qed.

Lemma float_of_bytes_space p b :
  PyFloat.is_space b = true ->
  PyFloat.has_underscore p = false ->
  PyFloat.of_bytes (p ++ [b]) = PyFloat.of_bytes p.
Proof.
  intros Hb Hp. unfold PyFloat.of_bytes.
  rewrite (has_underscore_space p b Hb), Hp.
  apply from_string_inner_space. exact Hb.
Qed.

(** X4: a numeric reply may carry white space before its line feed (a
    carriage return, say): for a payload without underscores, one more
    white-space byte at its end changes nothing to the number decoded. *)
Theorem numeric_reply_ignores_trailing_space payload b x :
  PyFloat.is_space b = true ->
  PyFloat.has_underscore payload = false ->
  _decode_response payload = Ok (Num x) ->
  _decode_response (payload ++ [b]) = Ok (Num x).
Proof.
  intros Hb Hp. unfold _decode_response.
  rewrite (float_of_bytes_space payload b Hb Hp).
  destruct (PyFloat.of_bytes payload); [tauto|].
  destruct (Utf8.decode payload); discriminate.
Qed.

(** X5: on the bytes of the line: [is_output_enabled] answers [True]
    exactly when the line read, less its last byte, is the two bytes
    [ON]; a payload with a carriage return after [ON], in lower case or
    with a space gives [False]. *)
Theorem is_output_enabled_bytes self w :
  is_open w = true ->
  (fst (is_output_enabled self w) = Ok true <->
     removelast (reply w) = encode "ON").
Proof.
  intros Hopen. rewrite <- decode_on.
  rewrite is_output_enabled_open by exact Hopen. simpl fst.
  destruct (_decode_response (removelast (reply w))) as [value|e].
  - split; intros H; injection H as H.
    + apply equals_str_true in H. congruence.
    + subst value. reflexivity.
  - split; discriminate.
Qed.

(** ** Guards *)

Lemma compare_nan_left x y : is_nan x = true -> compare x y = None.
Proof.
  unfold is_nan, compare. destruct (extended_of x); try discriminate.
  reflexivity.
Qed.

Lemma pow2_pos n : 0 <= n -> 0 < 2 ^ n.
Proof. intros H. apply Z.pow_pos_nonneg; lia. Qed.

(** The guard of the memory commands fails on a NaN and on nothing
    else. *)
Lemma memory_guard_nan index :
  py_ge index (PyInt 1) || py_le index (PyInt 10) = negb (is_nan index).
Proof.
  unfold py_ge, py_le, is_nan, compare.
  destruct (extended_of index) as [| | |m e]; try reflexivity.
  cbn [extended_of extended_compare negb].
  set (k := Z.min e 0).
  assert (Hb : 0 < 2 ^ (0 - k)) by (apply pow2_pos; lia).
  set (a := m * 2 ^ (e - k)) in *. set (b := 2 ^ (0 - k)) in *.
  destruct (Z.compare_spec a (1 * b)) as [H|H|H]; try reflexivity.
  destruct (Z.compare_spec a (10 * b)) as [H'|H'|H']; try reflexivity.
  lia.
Qed.

(** The table's limits against an [int]: a limit that is the integer
    [v], held as [n * 2 ^ (- k)]. *)
Lemma compare_int_float z v n k :
  0 <= k ->
  Zpos n = v * 2 ^ k ->
  compare (PyInt z) (PyFloat (S754_finite false n (- k))) = Some (z ?= v).
Proof.
  intros Hk Hn.
  unfold compare, extended_of, extended_of_float, extended_compare, cond_Zopp.
  rewrite Z.min_r by lia.
  replace (0 - - k) with k by lia. replace (- k - - k) with 0 by lia.
  rewrite Hn. change (2 ^ 0) with 1. rewrite Z.mul_1_r.
  f_equal. symmetry. apply Zmult_compare_compat_r.
  apply Z.lt_gt. apply pow2_pos. exact Hk.
Qed.

Lemma within_int z v n k :
  0 <= k ->
  Zpos n = v * 2 ^ k ->
  within (Some (S754_finite false n (- k))) (PyInt z) = (z <=? v).
Proof.
  intros Hk Hn. unfold within, py_le.
  rewrite (compare_int_float z v n k Hk Hn).
  unfold Z.leb. destruct (z ?= v); reflexivity.
Qed.

(** X6: for the two models of the table the guard on an [int] argument
    is an upper bound and nothing more: 30 volts and 5 amperes for the
    DP711, 50 volts and 3 amperes for the DP712.  There is no lower
    bound: every negative value passes. *)
Theorem table_limits_on_integers z :
  within (_max_voltage dp711) (PyInt z) = (z <=? 30) /\
  within (_max_current dp711) (PyInt z) = (z <=? 5) /\
  within (_max_voltage dp712) (PyInt z) = (z <=? 50) /\
  within (_max_current dp712) (PyInt z) = (z <=? 3).
Proof.
  repeat split.
  - apply (within_int z 30 _ 48); [lia | reflexivity].
  - apply (within_int z 5 _ 50); [lia | reflexivity].
  - apply (within_int z 50 _ 47); [lia | reflexivity].
  - apply (within_int z 3 _ 51); [lia | reflexivity].
Qed.

Section Guards.

Variable float_repr : float -> string.

(** X7: with a known current limit, [set_output_current(i)] writes
    [:CURR ], the formatted [i] and a line feed when [i <= max_current],
    and does nothing at all when [i > max_current]. *)
Theorem set_output_current_limit self limit current w :
  _max_current self = Some limit ->
  is_open w = true ->
  (py_le current (PyFloat limit) = true ->
     trace (snd (set_output_current float_repr self current w)) =
       trace w ++
       [Write (encode (":CURR " ++ format_number float_repr current ++ LF)%string)]) /\
  (py_gt current (PyFloat limit) = true ->
     set_output_current float_repr self current w = (Ok tt, w)).
Proof.
  intros Hlimit Hopen. split.
  - intros Hle. rewrite set_output_current_sends.
    + reflexivity.
    + rewrite Hlimit. exact Hle.
    + exact Hopen.
  - intros Hgt. unfold set_output_current. rewrite Hlimit. cbn [within].
    rewrite (py_gt_not_le _ _ Hgt). reflexivity.
Qed.

(** X8: a NaN is neither below nor above a limit: a driver with known
    limits drops it without a word, in both setters, while a driver
    without limits sends it. *)
Theorem setters_on_nan self value w :
  is_nan value = true ->
  (forall limit, _max_voltage self = Some limit ->
     set_output_voltage float_repr self value w = (Ok tt, w)) /\
  (forall limit, _max_current self = Some limit ->
     set_output_current float_repr self value w = (Ok tt, w)) /\
  (_max_voltage self = None -> is_open w = true ->
     trace (snd (set_output_voltage float_repr self value w)) =
       trace w ++
       [Write (encode (":VOLT " ++ format_number float_repr value ++ LF)%string)]).
Proof.
  intros Hnan. repeat split.
  - intros limit Hlimit. unfold set_output_voltage.
    rewrite Hlimit. unfold within, py_le.
    rewrite (compare_nan_left _ _ Hnan). reflexivity.
  - intros limit Hlimit. unfold set_output_current.
    rewrite Hlimit. unfold within, py_le.
    rewrite (compare_nan_left _ _ Hnan). reflexivity.
  - intros Hnone Hopen. rewrite set_output_voltage_sends.
    + reflexivity.
    + rewrite Hnone. reflexivity.
    + exact Hopen.
Qed.

(** X9: the guard [index >= 1 or index <= 10] of the memory commands
    stops a NaN and nothing else: on an open port [recall_from_memory]
    and [save_to_memory] write their command for every number that is
    not a NaN, whatever its size or sign, and do nothing for a NaN. *)
Theorem memory_commands_skip_only_nan self index w :
  is_open w = true ->
  (is_nan index = false ->
     trace (snd (recall_from_memory float_repr self index w)) =
       trace w ++
       [Write (encode (":MEM:LOAD RSF," ++ format_number float_repr index ++ LF)%string)] /\
     trace (snd (save_to_memory float_repr self index w)) =
       trace w ++
       [Write (encode (":MEM:STOR RSF," ++ format_number float_repr index ++ LF)%string)]) /\
  (is_nan index = true ->
     recall_from_memory float_repr self index w = (Ok tt, w) /\
     save_to_memory float_repr self index w = (Ok tt, w)).
Proof.
  intros Hopen.
  unfold recall_from_memory, save_to_memory.
  rewrite memory_guard_nan.
  split; intros Hnan; rewrite Hnan; cbn [negb].
  - rewrite !discard_reply by exact Hopen. split; reflexivity.
  - split; reflexivity.
Qed.

End Guards.

(** ** The baud rate *)




(** ** Queries *)

(** X12: the five measuring and reading methods each write their own
    command and hand back the decoded reply unchanged: a reply that is
    a float literal followed by one byte comes back as that number. *)
Theorem queries_return_number self w payload last x :
  is_open w = true ->
  reply w = payload ++ [last] ->
  PyFloat.of_bytes payload = Some x ->
  get_requested_output_voltage self w =
    (Ok (Num x), answered (encode (":VOLT?" ++ LF)%string) w) /\
  get_output_voltage self w =
    (Ok (Num x), answered (encode (":MEAS:VOLT? CH1" ++ LF)%string) w) /\
  get_requested_output_current self w =
    (Ok (Num x), answered (encode (":CURR?" ++ LF)%string) w) /\
  get_output_current self w =
    (Ok (Num x), answered (encode (":MEAS:CURR? CH1" ++ LF)%string) w) /\
  get_output_power self w =
    (Ok (Num x), answered (encode (":MEAS:POWE? CH1" ++ LF)%string) w).
Proof.
  intros Hopen Hreply Hfloat.
  unfold get_requested_output_voltage, get_output_voltage,
    get_requested_output_current, get_output_current, get_output_power.
  rewrite !execute_command_open by exact Hopen.
  rewrite Hreply, removelast_last, (decode_number _ _ Hfloat).
  repeat split.
Qed.

(** ** A closed port *)

(** X13: once the port is closed every method that sends raises
    [PortNotOpenError] and changes nothing; [__exit__] is among them, so
    leaving the scope a second time raises instead of closing again. *)
Theorem closed_port_raises self w :
  is_open w = false ->
  __exit__ self w = (Raise PortNotOpenError, w) /\
  (forall baud_rate,
      set_baud_rate self baud_rate w = (Raise PortNotOpenError, w)) /\
  get_requested_output_voltage self w = (Raise PortNotOpenError, w) /\
  get_output_voltage self w = (Raise PortNotOpenError, w) /\
  get_requested_output_current self w = (Raise PortNotOpenError, w) /\
  get_output_current self w = (Raise PortNotOpenError, w) /\
  get_output_power self w = (Raise PortNotOpenError, w) /\
  (forall enable, enable_output self enable w = (Raise PortNotOpenError, w)) /\
  is_output_enabled self w = (Raise PortNotOpenError, w).
Proof.
  intros Hclosed.
  unfold __exit__, set_baud_rate, get_requested_output_voltage,
    get_output_voltage, get_requested_output_current, get_output_current,
    get_output_power, enable_output, is_output_enabled, bind.
  repeat split; try intros argument;
    rewrite execute_command_closed by exact Hclosed; reflexivity.
Qed.

(** ** Framing of the commands *)

Lemma encode_app s t : encode (s ++ t)%string = encode s ++ encode t.
Proof.
  unfold encode, list_byte_of_string.
  induction s as [|c s IH]; [reflexivity|].
  cbn [String.append list_ascii_of_string map app]. rewrite IH. reflexivity.
Qed.

Lemma line_terminated s : terminated (Write (encode (s ++ LF)%string)).
Proof. exists (encode s). apply encode_app. Qed.

Lemma argument_line_terminated s t :
  terminated (Write (encode (s ++ t ++ LF)%string)).
Proof.
  exists (encode (s ++ t)%string).
  rewrite !encode_app, app_assoc. reflexivity.
Qed.

Lemma emits_ret P A (a : A) : emits P (ret a).
Proof. intros w. exists []. rewrite app_nil_r. split; [reflexivity | constructor]. Qed.

Lemma emits_raise P A (e : exn) : emits P (@raise A e).
Proof. intros w. exists []. rewrite app_nil_r. split; [reflexivity | constructor]. Qed.

Lemma emits_bind P A B (c : M A) (k : A -> M B) :
  emits P c -> (forall a, emits P (k a)) -> emits P (bind c k).
Proof.
  intros Hc Hk w. unfold bind.
  destruct (Hc w) as [ev1 [Htrace1 HP1]].
  destruct (c w) as [[a|e] w1]; simpl in *.
  - destruct (Hk a w1) as [ev2 [Htrace2 HP2]].
    exists (ev1 ++ ev2). split.
    + rewrite Htrace2, Htrace1, app_assoc. reflexivity.
    + apply Forall_app. split; assumption.
  - exists ev1. split; assumption.
Qed.

Lemma emits_try P A (c : M A) (h : exn -> M A) :
  emits P c -> (forall e, emits P (h e)) -> emits P (try_except c h).
Proof.
  intros Hc Hh w. unfold try_except.
  destruct (Hc w) as [ev1 [Htrace1 HP1]].
  destruct (c w) as [[a|e] w1]; simpl in *.
  - exists ev1. split; assumption.
  - destruct (Hh e w1) as [ev2 [Htrace2 HP2]].
    exists (ev1 ++ ev2). split.
    + rewrite Htrace2, Htrace1, app_assoc. reflexivity.
    + apply Forall_app. split; assumption.
Qed.

Lemma emits_silent P A (m : M A) :
  (forall w, trace (snd (m w)) = trace w) -> emits P m.
Proof.
  intros H w. exists []. rewrite app_nil_r. split; [apply H | constructor].
Qed.

Lemma emits_execute (P : event -> Prop) command :
  P (Write command) -> emits P (_execute_command command).
Proof.
  intros HP w. destruct (is_open w) eqn:Hopen.
  - rewrite execute_command_open by exact Hopen.
    exists [Write command]. split; [reflexivity|].
    constructor; [exact HP | constructor].
  - rewrite execute_command_closed by exact Hopen.
    exists []. rewrite app_nil_r. split; [reflexivity | constructor].
Qed.

Lemma emits_flush (P : event -> Prop) : P Flush -> emits P Serial.flush.
Proof.
  intros HP w. unfold Serial.flush. destruct (is_open w).
  - exists [Flush]. split; [reflexivity|]. constructor; [exact HP | constructor].
  - exists []. rewrite app_nil_r. split; [reflexivity | constructor].
Qed.

Lemma emits_close (P : event -> Prop) : P Close -> emits P Serial.close.
Proof.
  intros HP w. unfold Serial.close. destruct (is_open w).
  - exists [Close]. split; [reflexivity|]. constructor; [exact HP | constructor].
  - exists []. rewrite app_nil_r. split; [reflexivity | constructor].
Qed.

Lemma emits_set_rate P b : emits P (Serial.set_rate b).
Proof.
  apply emits_silent. intros w. unfold Serial.set_rate.
  destruct (b <? 0); reflexivity.
Qed.

Lemma emits_item P values i : emits P (item values i).
Proof.
  unfold item. destruct (nth_error values i);
    [apply emits_ret | apply emits_raise].
Qed.

Ltac framed :=
  repeat first
    [ apply emits_ret
    | apply emits_raise
    | apply emits_set_rate
    | apply emits_item
    | apply emits_flush; exact I
    | apply emits_close; exact I
    | apply emits_execute;
      first [apply line_terminated | apply argument_line_terminated]
    | apply emits_bind; [|intros ?] ].

Lemma exit_framed self : emits terminated (__exit__ self).
Proof. unfold __exit__. framed. Qed.

Lemma init_framed port baud : emits terminated (__init__ port baud).
Proof.
  unfold __init__. apply emits_bind.
  - unfold Serial.open. apply emits_bind; [apply emits_set_rate|].
    intros _. apply emits_silent. intros w.
    destruct (Serial.can_open port w); reflexivity.
  - intros _. apply emits_bind.
    + unfold _get_device_identification. apply emits_bind.
      * framed.
      * intros [f|s]; framed.
    + intros [[[manufacturer model] serial] software_version].
      destruct (lookup model MODEL_PARAMETERS); framed.
      apply emits_silent. reflexivity.
Qed.

Section Framing.

Variable float_repr : float -> string.

Lemma client_framed self A (m : M A) :
  client float_repr self A m -> emits terminated m.
Proof.
  induction 1.
  - apply emits_ret.
  - apply emits_raise.
  - apply emits_bind; assumption.
  - apply emits_try; assumption.
  - apply emits_silent. reflexivity.
  - unfold set_baud_rate. framed.
  - unfold set_output_voltage. destruct (within _ _); framed.
  - unfold get_requested_output_voltage. framed.
  - unfold get_output_voltage. framed.
  - unfold set_output_current. destruct (within _ _); framed.
  - unfold get_requested_output_current. framed.
  - unfold get_output_current. framed.
  - unfold get_output_power. framed.
  - unfold recall_from_memory. destruct (_ || _); framed.
  - unfold save_to_memory. destruct (_ || _); framed.
  - unfold enable_output. destruct b; framed.
  - unfold is_output_enabled. framed.
Qed.

(** X14: everything the driver writes is one line: from construction
    through any use of the public methods to the teardown, each write
    to the port is a byte string that ends with the line feed, whatever
    the replies of the device and whatever the formatting of floats. *)
Theorem every_write_is_a_line A port baud (body : PowerSupply -> M A) w :
  (forall self, client float_repr self A (body (__enter__ self))) ->
  exists events,
    trace (snd ((self <- __init__ port baud ;; with_statement self body) w)) =
      trace w ++ events /\
    Forall terminated events.
Proof.
  intros Hclient.
  apply (emits_bind terminated).
  - apply init_framed.
  - intros self w1. unfold with_statement.
    destruct (client_framed self A _ (Hclient self) w1) as [ev1 [Htrace1 HP1]].
    destruct (body (__enter__ self) w1) as [outcome w2]; simpl in *.
    destruct (exit_framed self w2) as [ev2 [Htrace2 HP2]].
    exists (ev1 ++ ev2). split.
    + destruct (__exit__ self w2) as [[u|e] w3]; simpl in *;
        rewrite Htrace2, Htrace1, app_assoc; reflexivity.
    + apply Forall_app. split; assumption.
Qed.

(** X15: the outcome of a [with] block around client code on an open
    port.  When the reply to [:SYST:LOC] can be decoded the block ends
    as its body did, exception or value, and the port is closed; when
    it cannot, the block raises [UnicodeDecodeError] in place of the
    body's outcome and the port stays open. *)
Theorem with_statement_outcome A self (body : PowerSupply -> M A) w :
  client float_repr self A (body (__enter__ self)) ->
  is_open w = true ->
  let w1 := snd (body (__enter__ self) w) in
  (forall value,
      _decode_response (removelast (reply w1)) = Ok value ->
      fst (with_statement self body w) = fst (body (__enter__ self) w) /\
      is_open (snd (with_statement self body w)) = false) /\
  (forall e,
      _decode_response (removelast (reply w1)) = Raise e ->
      fst (with_statement self body w) = Raise UnicodeDecodeError /\
      is_open (snd (with_statement self body w)) = true).
Proof.
  intros Hclient Hopen w1.
  destruct (public_methods_well_behaved float_repr _ _ _ Hclient w Hopen)
    as [Hopen1 _].
  fold w1 in Hopen1. unfold with_statement.
  destruct (body (__enter__ self) w) as [outcome w2] eqn:Hbody.
  simpl in w1. subst w1.
  rewrite exit_open by exact Hopen1.
  split.
  - intros value Hdecode. rewrite Hdecode. split; reflexivity.
  - intros e Hdecode. rewrite Hdecode.
    apply decode_raise_inv in Hdecode. subst e. split; [reflexivity | exact Hopen1].
Qed.

End Framing.

(** ** More on construction *)

Lemma init_attached port baud w :
  Serial.can_open port w = true ->
  0 <= baud ->
  let w1 := answered (encode ("*IDN?" ++ LF)%string)
              (set_open true (set_baudrate baud w)) in
  __init__ port baud w =
    match _decode_response (removelast (reply w)) with
    | Raise e => (Raise e, w1)
    | Ok (Num _) => (Raise AttributeError, w1)
    | Ok (Text s) =>
        match split comma s with
        | manufacturer :: model :: serial :: software_version :: _ =>
            let parameters := lookup model MODEL_PARAMETERS in
            (Ok (built manufacturer model serial software_version parameters),
             match parameters with
             | Some _ => w1
             | None =>
                 put_line ("<WARNING> " ++ model ++ " is unsupported!")%string w1
             end)
        | _ => (Raise IndexError, w1)
        end
    end.
Proof.
  intros Hport Hbaud w1.
  destruct (_decode_response (removelast (reply w))) as [[f|s]|e] eqn:Hdecode.
  - unfold __init__, _get_device_identification, bind.
    rewrite open_ok by assumption.
    rewrite execute_command_open by reflexivity.
    change (reply (set_open true (set_baudrate baud w))) with (reply w).
    rewrite Hdecode. reflexivity.
  - apply (init_text port baud w s Hport Hbaud Hdecode).
  - unfold __init__, _get_device_identification, bind.
    rewrite open_ok by assumption.
    rewrite execute_command_open by reflexivity.
    change (reply (set_open true (set_baudrate baud w))) with (reply w).
    rewrite Hdecode. reflexivity.
Qed.

(** X16: whatever the device answers, a constructor that could open
    the port writes the identification query [*IDN?] once and nothing
    else, and it never closes the port, not even when it raises. *)
Theorem init_traffic port baud w :
  Serial.can_open port w = true ->
  0 <= baud ->
  trace (snd (__init__ port baud w)) =
    trace w ++ [Write (encode ("*IDN?" ++ LF)%string)] /\
  is_open (snd (__init__ port baud w)) = true /\
  baudrate (snd (__init__ port baud w)) = baud.
Proof.
  intros Hport Hbaud.
  rewrite (init_attached port baud w Hport Hbaud). cbv zeta.
  destruct (_decode_response (removelast (reply w))) as [[f|s]|e];
    try (repeat split; reflexivity).
  destruct (split comma s) as [|f0 [|f1 [|f2 [|f3 extra]]]];
    try (repeat split; reflexivity).
  destruct (lookup f1 MODEL_PARAMETERS); repeat split; reflexivity.
Qed.

(** X17: replies the constructor cannot use.  A reply that reads as a
    number makes it raise [AttributeError] (a float has no [split]); a
    reply that is neither a number nor valid UTF-8 makes it raise
    [UnicodeDecodeError]; a device that sends nothing before the
    timeout, or one byte only, makes it raise [IndexError]. *)
Theorem init_unusable_reply port baud w :
  Serial.can_open port w = true ->
  0 <= baud ->
  (forall x, PyFloat.of_bytes (removelast (reply w)) = Some x ->
     fst (__init__ port baud w) = Raise AttributeError) /\
  (PyFloat.of_bytes (removelast (reply w)) = None ->
   Utf8.valid (removelast (reply w)) = false ->
     fst (__init__ port baud w) = Raise UnicodeDecodeError) /\
  ((List.length (reply w) <= 1)%nat ->
     fst (__init__ port baud w) = Raise IndexError).
Proof.
  intros Hport Hbaud.
  rewrite (init_attached port baud w Hport Hbaud). cbv zeta.
  repeat split.
  - intros x Hx. rewrite (decode_number _ _ Hx). reflexivity.
  - intros Hfloat Hvalid.
    unfold _decode_response, Utf8.decode. rewrite Hfloat, Hvalid. reflexivity.
  - intros Hshort.
    destruct (reply w) as [|b [|b' rest]]; simpl in Hshort; try lia;
      reflexivity.
Qed.

(** X18: a constructor that cannot open the port sends nothing and
    prints nothing: it raises [ValueError] for a negative baud rate,
    before looking at the port, and [SerialException] for a port that
    is not there. *)
Theorem init_cannot_open port baud w :
  (baud < 0 -> __init__ port baud w = (Raise ValueError, w)) /\
  (0 <= baud -> Serial.can_open port w = false ->
     fst (__init__ port baud w) = Raise SerialException /\
     trace (snd (__init__ port baud w)) = trace w /\
     stdout (snd (__init__ port baud w)) = stdout w /\
     is_open (snd (__init__ port baud w)) = is_open w).
Proof.
  unfold __init__, bind, Serial.open, Serial.set_rate, bind.
  split.
  - intros Hneg. destruct (Z.ltb_spec baud 0) as [_|H]; [reflexivity | lia].
  - intros Hbaud Hport. destruct (Z.ltb_spec baud 0) as [H|_]; [lia|].
    unfold modify.
    replace (Serial.can_open port (set_baudrate baud w)) with false.
    repeat split.
Qed.

(** X19: for a model of the table the limits of the new driver are the
    two of its row, and no warning is printed. *)
Theorem init_supported_model
    port baud w s manufacturer model serial software_version extra parameters :
  Serial.can_open port w = true ->
  0 <= baud ->
  _decode_response (removelast (reply w)) = Ok (Text s) ->
  split comma s = manufacturer :: model :: serial :: software_version :: extra ->
  lookup model MODEL_PARAMETERS = Some parameters ->
  exists self,
    fst (__init__ port baud w) = Ok self /\
    _max_voltage self = Some (max_voltage parameters) /\
    _max_current self = Some (max_current parameters) /\
    stdout (snd (__init__ port baud w)) = stdout w.
Proof.
  intros Hport Hbaud Hdecode Hsplit Hlookup.
  rewrite (init_text port baud w s Hport Hbaud Hdecode). cbv zeta.
  rewrite Hsplit, Hlookup.
  eexists. repeat split.
Qed.

(** X20: what holds of every driver the constructor returns: its
    identification is manufacturer, model and software version joined by
    single spaces (the serial number is left out), its printed form is
    that text after [<PowerSupply> ], its two limits are there together
    or missing together, as the table has its model or not, and its
    port is open. *)
Theorem constructed_driver port baud w self w' :
  __init__ port baud w = (Ok self, w') ->
  get_identification self =
    (_manufacturer self ++ " " ++ _model self ++ " " ++ _software_version self)%string /\
  __str__ self =
    ("<PowerSupply> " ++ _manufacturer self ++ " " ++ _model self ++ " "
       ++ _software_version self)%string /\
  _max_voltage self = option_map max_voltage (lookup (_model self) MODEL_PARAMETERS) /\
  _max_current self = option_map max_current (lookup (_model self) MODEL_PARAMETERS) /\
  is_open w' = true.
Proof.
  intros Hinit.
  pose proof (init_leaves_port_open _ _ _ _ _ Hinit) as Hopen.
  revert Hinit.
  unfold __init__, bind.
  destruct (Serial.open port baud w) as [[u|e] w0]; [|discriminate].
  destruct (_get_device_identification w0)
    as [[[[[manufacturer model] serial] software_version]|e] w1];
    [|discriminate].
  destruct (lookup model MODEL_PARAMETERS) as [parameters|] eqn:Hlookup.
  - intros H. injection H as <- <-.
    unfold __str__, get_identification.
    cbn [_id _manufacturer _model _software_version _max_voltage _max_current].
    rewrite Hlookup. repeat split. exact Hopen.
  - unfold print, modify, ret. intros H. injection H as <- <-.
    unfold __str__, get_identification.
    cbn [_id _manufacturer _model _software_version _max_voltage _max_current].
    rewrite Hlookup. repeat split. exact Hopen.
Qed.

(** ** Commands in sequence *)

Section Sequences.

Variable float_repr : float -> string.

(** X21: a setter reads a line too.  After a [set_output_voltage] that
    passed its guard, the next query is answered from the second line
    of the input, the first having been taken, and dropped, by the
    setter; after one stopped by its guard the query gets the first. *)
Theorem setter_takes_a_line self voltage w value :
  is_open w = true ->
  _decode_response (removelast (reply w)) = Ok value ->
  (within (_max_voltage self) voltage = true ->
     fst ((set_output_voltage float_repr self voltage ;;
           get_requested_output_voltage self) w) =
       _decode_response (removelast (hd [] (tl (incoming w))))) /\
  (within (_max_voltage self) voltage = false ->
     fst ((set_output_voltage float_repr self voltage ;;
           get_requested_output_voltage self) w) = Ok value).
Proof.
  intros Hopen Hdecode. split; intros Hguard.
  - unfold bind at 1. unfold set_output_voltage. rewrite Hguard.
    rewrite discard_reply by exact Hopen. rewrite Hdecode.
    unfold get_requested_output_voltage.
    rewrite execute_command_open by exact Hopen. reflexivity.
  - unfold bind at 1. unfold set_output_voltage. rewrite Hguard.
    unfold ret, get_requested_output_voltage.
    rewrite execute_command_open by exact Hopen.
    simpl fst. exact Hdecode.
Qed.

End Sequences.

(** ** Instances of the further properties *)


Lemma execute_command_effects_witness :
  let w := connected [[xff; x0a]; encode ("ON" ++ LF)%string] in
  let command := encode (":VOLT?" ++ LF)%string in
  is_open w = true /\
  fst (_execute_command command w) = Raise UnicodeDecodeError /\
  trace (snd (_execute_command command w)) = trace w ++ [Write command] /\
  incoming (snd (_execute_command command w)) = tl (incoming w) /\
  (forall e, fst (_execute_command command w) = Raise e ->
             e = UnicodeDecodeError).
Proof.
  intros w command.
  split; [reflexivity|]. split; [reflexivity|].
  apply (execute_command_effects command w). reflexivity.
Defined.

Lemma numeric_reply_ignores_trailing_space_witness :
  PyFloat.is_space "013"%byte = true /\
  PyFloat.has_underscore (encode "12.5") = false /\
  _decode_response (encode "12.5") = Ok (Num (literal 125 (-1))) /\
  _decode_response (encode "12.5" ++ ["013"%byte]) = Ok (Num (literal 125 (-1))).
Proof.
  split; [reflexivity|]. split; [reflexivity|]. split; [reflexivity|].
  apply (numeric_reply_ignores_trailing_space (encode "12.5") "013"%byte);
    reflexivity.
Defined.

Lemma is_output_enabled_bytes_witness :
  let w := connected [encode ("ON" ++ LF)%string] in
  is_open w = true /\
  removelast (reply w) = encode "ON" /\
  fst (is_output_enabled dp711 w) = Ok true.
Proof.
  intros w.
  split; [reflexivity|]. split; [reflexivity|].
  apply (proj2 (is_output_enabled_bytes dp711 w eq_refl)). reflexivity.
Defined.

Lemma set_output_current_limit_witness :
  _max_current dp711 = Some (literal 50 (-1)) /\
  is_open (connected []) = true /\
  py_le (PyInt 5) (PyFloat (literal 50 (-1))) = true /\
  py_gt (PyInt 6) (PyFloat (literal 50 (-1))) = true /\
  trace (snd (set_output_current no_repr dp711 (PyInt 5) (connected []))) =
    [Write (encode (":CURR 5" ++ LF)%string)] /\
  set_output_current no_repr dp711 (PyInt 6) (connected []) =
    (Ok tt, connected []).
Proof.
  do 4 (split; [reflexivity|]).
  split.
  - apply (proj1 (set_output_current_limit no_repr dp711 (literal 50 (-1))
                    (PyInt 5) (connected []) eq_refl eq_refl)).
    reflexivity.
  - apply (proj2 (set_output_current_limit no_repr dp711 (literal 50 (-1))
                    (PyInt 6) (connected []) eq_refl eq_refl)).
    reflexivity.
Defined.

Lemma setters_on_nan_witness :
  is_nan (PyFloat S754_nan) = true /\
  _max_voltage dp711 = Some (literal 300 (-1)) /\
  set_output_voltage no_repr dp711 (PyFloat S754_nan) (connected []) =
    (Ok tt, connected []) /\
  _max_voltage unlisted = None /\
  is_open (connected []) = true /\
  trace (snd (set_output_voltage no_repr unlisted (PyFloat S754_nan) (connected []))) =
    [Write (encode (":VOLT " ++ no_repr S754_nan ++ LF)%string)].
Proof.
  split; [reflexivity|]. split; [reflexivity|].
  split.
  - apply (proj1 (setters_on_nan no_repr dp711 (PyFloat S754_nan)
                    (connected []) eq_refl) (literal 300 (-1))).
    reflexivity.
  - split; [reflexivity|]. split; [reflexivity|].
    apply (proj2 (proj2 (setters_on_nan no_repr unlisted (PyFloat S754_nan)
                           (connected []) eq_refl))); reflexivity.
Defined.

Lemma memory_commands_skip_only_nan_witness :
  is_open (connected []) = true /\
  is_nan (PyFloat (S754_infinity true)) = false /\
  trace (snd (recall_from_memory no_repr dp711 (PyFloat (S754_infinity true))
                (connected []))) =
    [Write (encode (":MEM:LOAD RSF," ++ no_repr (S754_infinity true) ++ LF)%string)] /\
  is_nan (PyFloat S754_nan) = true /\
  save_to_memory no_repr dp711 (PyFloat S754_nan) (connected []) =
    (Ok tt, connected []).
Proof.
  split; [reflexivity|]. split; [reflexivity|].
  split.
  - apply (proj1 (memory_commands_skip_only_nan no_repr dp711
                    (PyFloat (S754_infinity true)) (connected []) eq_refl)).
    reflexivity.
  - split; [reflexivity|].
    apply (proj2 (memory_commands_skip_only_nan no_repr dp711
                    (PyFloat S754_nan) (connected []) eq_refl)).
    reflexivity.
Defined.



Lemma queries_return_number_witness :
  let w := connected [encode ("12.5" ++ LF)%string] in
  is_open w = true /\
  reply w = encode "12.5" ++ ["010"%byte] /\
  PyFloat.of_bytes (encode "12.5") = Some (literal 125 (-1)) /\
  get_output_voltage dp711 w =
    (Ok (Num (literal 125 (-1))),
     answered (encode (":MEAS:VOLT? CH1" ++ LF)%string) w).
Proof.
  intros w.
  split; [reflexivity|]. split; [reflexivity|]. split; [reflexivity|].
  apply (queries_return_number dp711 w (encode "12.5") "010"%byte
           (literal 125 (-1))); reflexivity.
Defined.

Lemma closed_port_raises_witness :
  is_open (bench []) = false /\
  __exit__ dp711 (bench []) = (Raise PortNotOpenError, bench []).
Proof.
  split; [reflexivity|].
  apply (closed_port_raises dp711 (bench []) eq_refl).
Defined.

Lemma every_write_is_a_line_witness :
  let body := fun supply : PowerSupply =>
                enable_output supply true ;;
                get_output_power supply in
  let w := bench [encode ("RIGOL,DP711,SN123,1.02" ++ LF)%string] in
  (forall self, client no_repr self decoded (body (__enter__ self))) /\
  exists events,
    trace (snd ((self <- __init__ sample_port default_baudrate ;;
                 with_statement self body) w)) = trace w ++ events /\
    Forall terminated events.
Proof.
  intros body w.
  assert (Hclient : forall self, client no_repr self decoded (body (__enter__ self))).
  { intros self. unfold body. apply client_bind.
    - apply client_enable_output.
    - intros _. apply client_get_output_power. }
  split; [exact Hclient|].
  apply (every_write_is_a_line no_repr decoded sample_port default_baudrate
           body w Hclient).
Defined.

Lemma with_statement_outcome_witness :
  let body := fun supply : PowerSupply => set_baud_rate supply (-1) in
  let w := connected [encode LF; encode LF] in
  client no_repr dp711 unit (body (__enter__ dp711)) /\
  is_open w = true /\
  _decode_response (removelast (reply (snd (body (__enter__ dp711) w)))) =
    Ok (Text "") /\
  fst (body (__enter__ dp711) w) = Raise ValueError /\
  fst (with_statement dp711 body w) = fst (body (__enter__ dp711) w) /\
  is_open (snd (with_statement dp711 body w)) = false.
Proof.
  intros body w.
  assert (Hclient : client no_repr dp711 unit (body (__enter__ dp711))).
  { unfold body. apply client_set_baud_rate. }
  split; [exact Hclient|].
  split; [reflexivity|]. split; [reflexivity|]. split; [reflexivity|].
  apply (proj1 (with_statement_outcome no_repr unit dp711 body w Hclient eq_refl)
           (Text "")).
  reflexivity.
Defined.

Lemma init_traffic_witness :
  let w := bench [] in
  Serial.can_open sample_port w = true /\
  0 <= default_baudrate /\
  fst (__init__ sample_port default_baudrate w) = Raise IndexError /\
  trace (snd (__init__ sample_port default_baudrate w)) =
    trace w ++ [Write (encode ("*IDN?" ++ LF)%string)] /\
  is_open (snd (__init__ sample_port default_baudrate w)) = true /\
  baudrate (snd (__init__ sample_port default_baudrate w)) = default_baudrate.
Proof.
  intros w.
  split; [reflexivity|].
  split; [unfold default_baudrate; lia|].
  split; [reflexivity|].
  apply (init_traffic sample_port default_baudrate w).
  - reflexivity.
  - unfold default_baudrate; lia.
Defined.

Lemma init_unusable_reply_witness :
  let w := bench [encode ("12.5" ++ LF)%string] in
  Serial.can_open sample_port w = true /\
  0 <= default_baudrate /\
  PyFloat.of_bytes (removelast (reply w)) = Some (literal 125 (-1)) /\
  fst (__init__ sample_port default_baudrate w) = Raise AttributeError.
Proof.
  intros w.
  split; [reflexivity|].
  split; [unfold default_baudrate; lia|].
  split; [reflexivity|].
  apply (proj1 (init_unusable_reply sample_port default_baudrate w eq_refl
                  (Z.lt_le_incl 0 default_baudrate eq_refl))
           (literal 125 (-1))).
  reflexivity.
Defined.

Lemma init_cannot_open_witness :
  -1 < 0 /\
  __init__ sample_port (-1) (bench []) = (Raise ValueError, bench []) /\
  0 <= default_baudrate /\
  Serial.can_open "COM7" (bench []) = false /\
  fst (__init__ "COM7" default_baudrate (bench [])) = Raise SerialException /\
  trace (snd (__init__ "COM7" default_baudrate (bench []))) = trace (bench []) /\
  stdout (snd (__init__ "COM7" default_baudrate (bench []))) = stdout (bench []) /\
  is_open (snd (__init__ "COM7" default_baudrate (bench []))) = is_open (bench []).
Proof.
  split; [lia|].
  split.
  - apply (proj1 (init_cannot_open sample_port (-1) (bench []))). lia.
  - split; [unfold default_baudrate; lia|].
    split; [reflexivity|].
    apply (proj2 (init_cannot_open "COM7" default_baudrate (bench []))).
    + unfold default_baudrate; lia.
    + reflexivity.
Defined.

Lemma init_supported_model_witness :
  let w := bench [encode ("RIGOL,DP712,SN456,1.02" ++ LF)%string] in
  Serial.can_open sample_port w = true /\
  0 <= default_baudrate /\
  _decode_response (removelast (reply w)) = Ok (Text "RIGOL,DP712,SN456,1.02") /\
  split comma "RIGOL,DP712,SN456,1.02" = ["RIGOL"; "DP712"; "SN456"; "1.02"]%string /\
  lookup "DP712" MODEL_PARAMETERS =
    Some {| max_voltage := literal 500 (-1); max_current := literal 30 (-1) |} /\
  exists self,
    fst (__init__ sample_port default_baudrate w) = Ok self /\
    _max_voltage self = Some (literal 500 (-1)) /\
    _max_current self = Some (literal 30 (-1)) /\
    stdout (snd (__init__ sample_port default_baudrate w)) = stdout w.
Proof.
  intros w.
  split; [reflexivity|].
  split; [unfold default_baudrate; lia|].
  do 3 (split; [reflexivity|]).
  apply (init_supported_model sample_port default_baudrate w
           "RIGOL,DP712,SN456,1.02" "RIGOL" "DP712" "SN456" "1.02" []
           {| max_voltage := literal 500 (-1); max_current := literal 30 (-1) |}).
  - reflexivity.
  - unfold default_baudrate; lia.
  - reflexivity.
  - reflexivity.
  - reflexivity.
Defined.

Lemma constructed_driver_witness :
  let w := bench [encode ("RIGOL,DP832,SN123,1.02" ++ LF)%string] in
  let w' := snd (__init__ sample_port default_baudrate w) in
  __init__ sample_port default_baudrate w = (Ok unlisted, w') /\
  get_identification unlisted = "RIGOL DP832 1.02"%string /\
  __str__ unlisted = "<PowerSupply> RIGOL DP832 1.02"%string /\
  _max_voltage unlisted = None /\
  _max_current unlisted = None /\
  is_open w' = true.
Proof.
  intros w w'.
  split; [reflexivity|].
  apply (constructed_driver sample_port default_baudrate w unlisted w').
  reflexivity.
Defined.

Lemma setter_takes_a_line_witness :
  let w := connected [encode LF; encode ("12.5" ++ LF)%string] in
  is_open w = true /\
  _decode_response (removelast (reply w)) = Ok (Text "") /\
  within (_max_voltage dp711) (PyInt 12) = true /\
  fst ((set_output_voltage no_repr dp711 (PyInt 12) ;;
        get_requested_output_voltage dp711) w) = Ok (Num (literal 125 (-1))) /\
  within (_max_voltage dp711) (PyInt 31) = false /\
  fst ((set_output_voltage no_repr dp711 (PyInt 31) ;;
        get_requested_output_voltage dp711) w) = Ok (Text "").
Proof.
  intros w.
  split; [reflexivity|]. split; [reflexivity|]. split; [reflexivity|].
  split.
  - apply (proj1 (setter_takes_a_line no_repr dp711 (PyInt 12) w (Text "")
                    eq_refl eq_refl)).
    reflexivity.
  - split; [reflexivity|].
    apply (proj2 (setter_takes_a_line no_repr dp711 (PyInt 31) w (Text "")
                    eq_refl eq_refl)).
    reflexivity.
Defined.
